(** * agentools.register.tool: registry, dispatch and the brace extractor

    A shallow embedding of [src/agentools/register/tool.py].  Python
    values are restricted to JSON-shaped data, exceptions are modelled by
    their class hierarchy, and every function of the module that touches
    the registry file, the LLM client, the import system or the log is a
    state transformer over an explicit [World]. *)

From Stdlib Require Import ZArith Ascii String Lia.
From stdpp Require Import base tactics option list strings pretty.

Local Open Scope string_scope.
Local Open Scope list_scope.
Local Open Scope nat_scope.
Local Open Scope stdpp_scope.

(** ** Exceptions and results *)

(** An exception instance: the names of its class and of all base
    classes (the method resolution order), and [str(e)]. *)
Record exn := mk_exn { exn_mro : list string; exn_msg : string }.

Definition isinstance (e : exn) (cls : string) : bool :=
  bool_decide (cls ∈ exn_mro e).

Definition IndexError (msg : string) : exn :=
  mk_exn ["IndexError"; "LookupError"; "Exception"; "BaseException"] msg.
Definition KeyError (msg : string) : exn :=
  mk_exn ["KeyError"; "LookupError"; "Exception"; "BaseException"] msg.
Definition TypeError (msg : string) : exn :=
  mk_exn ["TypeError"; "Exception"; "BaseException"] msg.
Definition ValueError (msg : string) : exn :=
  mk_exn ["ValueError"; "Exception"; "BaseException"] msg.
Definition AttributeError (msg : string) : exn :=
  mk_exn ["AttributeError"; "Exception"; "BaseException"] msg.

Inductive result (A : Type) : Type :=
| Return (a : A)
| Raise (e : exn).
Arguments Return {A} a.
Arguments Raise {A} e.

(** ** [extract_json] *)

Definition lbrace : ascii := "{"%char.
Definition rbrace : ascii := "}"%char.

(** [text.find(c)]: index of the first occurrence, [-1] when absent. *)
Fixpoint find_from (c : ascii) (text : list ascii) (i : Z) : Z :=
  match text with
  | [] => (-1)%Z
  | x :: rest => if decide (x = c) then i else find_from c rest (i + 1)%Z
  end.

Definition find (c : ascii) (text : list ascii) : Z := find_from c text 0%Z.

(** [text[lo:hi]] for [0 <= lo]. *)
Definition slice (text : list ascii) (lo hi : nat) : list ascii :=
  take (hi - lo) (drop lo text).

(** [stack.pop()]: removes the last element, [IndexError] when empty. *)
Definition pop (stack : list ascii) : result (list ascii) :=
  match stack with
  | [] => Raise (IndexError "pop from empty list")
  | _ => Return (removelast stack)
  end.

(** The body of [for i in range(start, len(text))], over the remaining
    indices of the range. *)
Fixpoint extract_loop (text : list ascii) (start : nat) (range : list nat)
    (stack : list ascii) : result (option (list ascii)) :=
  match range with
  | [] => Return None
  | i :: range' =>
      match text !! i with
      | None => Raise (IndexError "string index out of range")
      | Some c =>
          if decide (c = lbrace) then
            extract_loop text start range' (stack ++ [lbrace])
          else if decide (c = rbrace) then
            match pop stack with
            | Raise e => Raise e
            | Return stack' =>
                match stack' with
                | [] => Return (Some (slice text start (i + 1)))
                | _ => extract_loop text start range' stack'
                end
            end
          else extract_loop text start range' stack
      end
  end.

Definition extract_chars (text : list ascii) : result (option (list ascii)) :=
  let start := find lbrace text in
  if decide (start = (-1)%Z) then Return None
  else
    let start := Z.to_nat start in
    extract_loop text start (seq start (length text - start)) [].

(** [extract_json(text)] on a Python [str], seen as its list of
    characters. *)
Definition extract_json (text : string) : result (option string) :=
  match extract_chars (list_ascii_of_string text) with
  | Return r => Return (string_of_list_ascii <$> r)
  | Raise e => Raise e
  end.

(** *** What the extractor is meant to compute *)

(** Nesting depth of a piece of text: opening minus closing braces. *)
Fixpoint depth (l : list ascii) : Z :=
  match l with
  | [] => 0%Z
  | c :: l' =>
      ((if decide (c = lbrace) then 1
        else if decide (c = rbrace) then -1 else 0) + depth l')%Z
  end.

(** A brace group: starts with an opening brace, ends exactly where the
    depth first returns to zero. *)
Definition balanced_group (g : list ascii) : Prop :=
  head g = Some lbrace ∧ depth g = 0%Z ∧
  ∀ k : nat, 0 < k < length g → (0 < depth (take k g))%Z.

(** [g] is the first top-level group of [text]: it starts at the first
    opening brace. *)
Definition first_group (text g : list ascii) : Prop :=
  ∃ pre post, text = (pre ++ g ++ post) ∧ (lbrace ∉ pre) ∧ balanced_group g.

(** The first opening brace is never closed. *)
Definition never_closes (text : list ascii) : Prop :=
  ∃ pre rest, text = (pre ++ lbrace :: rest) ∧ (lbrace ∉ pre) ∧
    ∀ k : nat, 0 < k ≤ S (length rest) → (0 < depth (take k (lbrace :: rest)))%Z.

(** Number of characters after which a scan at depth [d] closes the
    group, as a recursion on the remaining text. *)
Fixpoint close_at (d : nat) (rest : list ascii) : option nat :=
  match rest with
  | [] => None
  | c :: rest' =>
      if decide (c = lbrace) then S <$> close_at (S d) rest'
      else if decide (c = rbrace) then
        match d with
        | 0 | 1 => Some 1
        | S d' => S <$> close_at d' rest'
        end
      else S <$> close_at d rest'
  end.

(** * The registry and the dispatcher *)

(** ** Python values *)

(** The values that flow through the registry and the dispatcher are
    JSON-shaped: [None], booleans, integers, strings, lists, and
    dictionaries with string keys (in insertion order).  On such values
    [json.dump] followed by [json.load] is the identity.  Floats,
    tuples, sets and bytes, which [ast.literal_eval] can also give, are
    not represented: a statement that depends on the shape of a parsed
    value names the shapes it covers. *)
#[warnings="-register-all"]
Inductive pyval : Type :=
| PNone
| PBool (b : bool)
| PInt (z : Z)
| PStr (s : string)
| PList (l : list pyval)
| PDict (d : list (string * pyval)).

(** *** Dictionaries as insertion-ordered association lists *)

(** [d.get(k)] under the key equality [eqb]. *)
Fixpoint dict_get {K V : Type} (eqb : K → K → bool) (k : K)
    (d : list (K * V)) : option V :=
  match d with
  | [] => None
  | (k', v) :: d' => if eqb k' k then Some v else dict_get eqb k d'
  end.

(** [d[k] = v]: an existing key keeps its position (and its key object),
    a new key is appended. *)
Fixpoint dict_set {K V : Type} (eqb : K → K → bool) (k : K) (v : V)
    (d : list (K * V)) : list (K * V) :=
  match d with
  | [] => [(k, v)]
  | (k', v') :: d' =>
      if eqb k' k then (k', v) :: d' else (k', v') :: dict_set eqb k v d'
  end.

Definition keys {K V : Type} (d : list (K * V)) : list K := d.*1.

(** [dict(members)]: the members inserted one after the other. *)
Definition dict_of_members {K V : Type} (eqb : K → K → bool)
    (members : list (K * V)) : list (K * V) :=
  foldl (λ acc kv, dict_set eqb kv.1 kv.2 acc) [] members.

Definition str_eqb (a b : string) : bool := bool_decide (a = b).

(** String-keyed dictionaries: the inner dictionaries of [pyval]. *)
Definition sget (k : string) (d : list (string * pyval)) : option pyval :=
  dict_get str_eqb k d.
Definition sset (k : string) (v : pyval) (d : list (string * pyval)) :
    list (string * pyval) :=
  dict_set str_eqb k v d.

(** Keys of the in-memory registry are arbitrary hashable objects.
    Python compares [True] and [1] (and [False] and [0]) as equal keys. *)
Definition hashable (v : pyval) : bool :=
  match v with
  | PList _ | PDict _ => false
  | _ => true
  end.

Definition key_eqb (a b : pyval) : bool :=
  match a, b with
  | PNone, PNone => true
  | PStr s, PStr t => str_eqb s t
  | PBool x, PBool y => bool_decide (x = y)
  | PBool x, PInt z | PInt z, PBool x => bool_decide (Z.b2z x = z)
  | PInt x, PInt y => bool_decide (x = y)
  | _, _ => false
  end.

(** The object bound to [tools] after [load_tools]: a dictionary when
    the document is a JSON object, any other JSON value otherwise. *)
Inductive tools_obj : Type :=
| TDict (d : list (pyval * pyval))
| TOther (v : pyval).

(** *** Subscripting and iteration *)

(** [v[k]] for a string [k]. *)
Definition getitem (v : pyval) (k : string) : result pyval :=
  match v with
  | PDict d =>
      match sget k d with
      | Some x => Return x
      | None => Raise (KeyError ("'" +:+ k +:+ "'"))
      end
  | PList _ => Raise (TypeError "list indices must be integers or slices, not str")
  | PStr _ => Raise (TypeError "string indices must be integers, not 'str'")
  | _ => Raise (TypeError "object is not subscriptable")
  end.

(** [v[k] = x] for a string [k]. *)
Definition setitem (v : pyval) (k : string) (x : pyval) : result pyval :=
  match v with
  | PDict d => Return (PDict (sset k x d))
  | PList _ => Raise (TypeError "list indices must be integers or slices, not str")
  | _ => Raise (TypeError "object does not support item assignment")
  end.

(** [tools[k] = x] on the loaded registry object. *)
Definition tools_setitem (tools : tools_obj) (k : pyval) (x : pyval) :
    result tools_obj :=
  match tools with
  | TDict d =>
      if hashable k then Return (TDict (dict_set key_eqb k x d))
      else Raise (TypeError "unhashable type")
  | TOther (PList _) =>
      Raise (TypeError "list indices must be integers or slices")
  | TOther _ => Raise (TypeError "object does not support item assignment")
  end.

(** [iter(v)]: the items a [for] loop over [v] visits. *)
Definition iterate (v : pyval) : result (list pyval) :=
  match v with
  | PList l => Return l
  | PDict d => Return (PStr <$> keys d)
  | PStr s =>
      Return ((λ c, PStr (String c EmptyString)) <$> list_ascii_of_string s)
  | _ => Raise (TypeError "object is not iterable")
  end.

(** *** Strings *)

Definition dq : string := String (ascii_of_nat 34) EmptyString.
Definition nl : string := String (ascii_of_nat 10) EmptyString.

(** [sub in s]. *)
Fixpoint contains (sub s : string) : bool :=
  String.prefix sub s ||
  match s with
  | EmptyString => false
  | String _ s' => contains sub s'
  end.

(** Strings hold text as its UTF-8 encoding.  The whitespace of
    [str.isspace], which [str.strip] removes: the ASCII separators, then
    U+0085, U+00A0, U+1680, U+2000 to U+200A, U+2028, U+2029, U+202F,
    U+205F and U+3000, each as the bytes of its encoding. *)
Definition whitespace : list (list ascii) :=
  (λ bytes : list nat, ascii_of_nat <$> bytes) <$>
  [[9]; [10]; [11]; [12]; [13]; [28]; [29]; [30]; [31]; [32];
   [194; 133]; [194; 160]; [225; 154; 128];
   [226; 128; 128]; [226; 128; 129]; [226; 128; 130]; [226; 128; 131];
   [226; 128; 132]; [226; 128; 133]; [226; 128; 134]; [226; 128; 135];
   [226; 128; 136]; [226; 128; 137]; [226; 128; 138];
   [226; 128; 168]; [226; 128; 169]; [226; 128; 175]; [226; 129; 159];
   [227; 128; 128]].

Fixpoint starts_with (p l : list ascii) : bool :=
  match p, l with
  | [], _ => true
  | a :: p', b :: l' => bool_decide (a = b) && starts_with p' l'
  | _ :: _, [] => false
  end.

(** Removes, one after the other, the leading characters that are in
    [table]; every character takes at least one byte, so [length l]
    steps are enough. *)
Fixpoint strip_leading (table : list (list ascii)) (fuel : nat)
    (l : list ascii) : list ascii :=
  match fuel with
  | 0 => l
  | S fuel' =>
      match List.find (λ enc, starts_with enc l) table with
      | Some enc => strip_leading table fuel' (drop (length enc) l)
      | None => l
      end
  end.

Definition lstrip (l : list ascii) : list ascii :=
  strip_leading whitespace (length l) l.

(** The trailing characters, read backwards. *)
Definition rstrip (l : list ascii) : list ascii :=
  rev (strip_leading ((λ enc : list ascii, rev enc) <$> whitespace)
         (length l) (rev l)).

(** [s.strip()]. *)
Definition strip (s : string) : string :=
  string_of_list_ascii (rstrip (lstrip (list_ascii_of_string s))).

(** *** Literal texts *)

(** The two ways a Python literal quotes a string; the second is the
    one JSON has. *)
Inductive quote : Type := Single | Double.

Definition quote_char (q : quote) : ascii :=
  match q with
  | Single => ascii_of_nat 39
  | Double => ascii_of_nat 34
  end.

Definition is_quote (c : ascii) : bool :=
  Ascii.eqb c (quote_char Single) || Ascii.eqb c (quote_char Double).

(** A character that stands for itself between quotes of either kind:
    printable ASCII other than the two quotes and the backslash. *)
Definition plain_char (c : ascii) : bool :=
  let n := nat_of_ascii c in
  (32 <=? n) && (n <=? 126) && negb (is_quote c) && negb (n =? 92).


(** A dictionary display whose keys and values are strings, as the
    pairs it is written with, and the text of a list of such displays:
    [[{'k': 'v', 'k': 'v'}, {'k': 'v'}]], with the quotes of [q]. *)
Definition record : Type := list (string * string).








(** The value of such a text: in a dictionary display a repeated key
    keeps its first place and its last value. *)
Definition record_value (r : record) : pyval :=
  PDict (dict_of_members str_eqb ((λ kv, (kv.1, PStr kv.2)) <$> r)).

Definition records_value (rs : list record) : pyval :=
  PList (record_value <$> rs).

(** Reading such a text back, one character at a time; each string may
    use either kind of quotes. *)
Inductive scan : Type :=
| AtOpen
| AtFirstRecord
| AtRecord (done : list record)
| AtFirstKey (done : list record)
| AtKey (done : list record) (pairs : record)
| InKey (done : list record) (pairs : record) (q : ascii) (acc : list ascii)
| AtColon (done : list record) (pairs : record) (key : string)
| AtColonSpace (done : list record) (pairs : record) (key : string)
| AtValue (done : list record) (pairs : record) (key : string)
| InValue (done : list record) (pairs : record) (key : string) (q : ascii)
    (acc : list ascii)
| AfterValue (done : list record) (pairs : record)
| AtPairSpace (done : list record) (pairs : record)
| AfterRecord (done : list record)
| AtRecordSpace (done : list record)
| AtEnd (done : list record).

Definition step (st : scan) (c : ascii) : option scan :=
  match st with
  | AtOpen => if Ascii.eqb c "[" then Some AtFirstRecord else None
  | AtFirstRecord =>
      if Ascii.eqb c "{" then Some (AtFirstKey [])
      else if Ascii.eqb c "]" then Some (AtEnd [])
      else None
  | AtRecord done => if Ascii.eqb c "{" then Some (AtFirstKey done) else None
  | AtFirstKey done =>
      if is_quote c then Some (InKey done [] c [])
      else if Ascii.eqb c "}" then Some (AfterRecord (done ++ [[]]))
      else None
  | AtKey done pairs => if is_quote c then Some (InKey done pairs c []) else None
  | InKey done pairs q acc =>
      if Ascii.eqb c q then Some (AtColon done pairs (string_of_list_ascii acc))
      else if plain_char c then Some (InKey done pairs q (acc ++ [c]))
      else None
  | AtColon done pairs key =>
      if Ascii.eqb c ":" then Some (AtColonSpace done pairs key) else None
  | AtColonSpace done pairs key =>
      if Ascii.eqb c " " then Some (AtValue done pairs key) else None
  | AtValue done pairs key =>
      if is_quote c then Some (InValue done pairs key c []) else None
  | InValue done pairs key q acc =>
      if Ascii.eqb c q
      then Some (AfterValue done (pairs ++ [(key, string_of_list_ascii acc)]))
      else if plain_char c then Some (InValue done pairs key q (acc ++ [c]))
      else None
  | AfterValue done pairs =>
      if Ascii.eqb c "," then Some (AtPairSpace done pairs)
      else if Ascii.eqb c "}" then Some (AfterRecord (done ++ [pairs]))
      else None
  | AtPairSpace done pairs =>
      if Ascii.eqb c " " then Some (AtKey done pairs) else None
  | AfterRecord done =>
      if Ascii.eqb c "," then Some (AtRecordSpace done)
      else if Ascii.eqb c "]" then Some (AtEnd done)
      else None
  | AtRecordSpace done => if Ascii.eqb c " " then Some (AtRecord done) else None
  | AtEnd _ => None
  end.

Fixpoint run (st : scan) (l : list ascii) : option scan :=
  match l with
  | [] => Some st
  | c :: l' =>
      match step st c with
      | Some st' => run st' l'
      | None => None
      end
  end.

(** The records of a text that is a list of such displays. *)
Definition literal_records (s : string) : option (list record) :=
  match run AtOpen (list_ascii_of_string s) with
  | Some (AtEnd done) => Some done
  | _ => None
  end.

(** [not x] for an optional string: [None] and the empty string are falsy. *)
Definition falsy (x : option string) : bool :=
  match x with
  | None | Some EmptyString => true
  | Some _ => false
  end.

(** ** The world *)

(** A function object as [inspect] sees it.  An annotation object is
    represented by its [str()]; [None] stands for
    [inspect.Parameter.empty] / [inspect.Signature.empty]. *)
Record Param := mk_param {
  param_name : string;
  param_annotation : option string
}.

Record Func := mk_func {
  fn_name : string;            (* func.__name__ *)
  fn_params : list Param;      (* inspect.signature(func).parameters *)
  fn_return : option string;   (* signature.return_annotation *)
  fn_doc : option string;      (* func.__doc__ *)
  fn_id : nat                  (* identity of the code object *)
}.

(** What a name of a namespace is bound to. *)
Inductive Obj : Type :=
| OFunc (f : Func)
| OOther (descr : string).

(** An imported module: its attributes and what [inspect.getsource]
    gives for it. *)
Record Module := mk_module {
  mod_attrs : list (string * Obj);
  mod_source : result string
}.

(** [tool_template/tools.json]: absent; text that is not JSON, with the
    message of the [JSONDecodeError] that [json.load] raises on it;
    bytes that are not UTF-8 text, with the message of the
    [UnicodeDecodeError]; or the parse tree of its JSON text (for an
    object, its list of members). *)
Inductive File : Type :=
| Missing
| Garbage (err : string)
| Undecodable (err : string)
| Json (v : pyval).

Inductive Event : Type :=
| EvLoadTools
| EvSaveTools
| EvLLM (prompt : string)
| EvImport (module_path : string)
| EvLog (level msg : string).

Record World := mk_world {
  tools_file : File;
  registered_functions : list (string * Func);  (* ToolManager._registered_functions *)
  uuid_draws : nat;                             (* calls of uuid.uuid4() so far *)
  llm_calls : nat;                              (* calls of llm.invoke so far *)
  trace : list Event
}.

(** The collaborators of the module: the LLM client, the standard
    library parsers and printers, the import system, the namespace of
    [tool.py] itself, and the bodies of the functions that get called. *)
Record Env := mk_env {
  llm_content : nat → string → result string;      (* llm.invoke(prompt).content *)
  uuid4_str : nat → string;                         (* str(uuid.uuid4()) *)
  json_loads : string → result pyval;               (* json.loads *)
  json_dumps : tools_obj → string;                  (* json.dumps *)
  literal_eval_other : string → result pyval;       (* ast.literal_eval, see below *)
  format_val : pyval → string;                      (* f"{v}" *)
  module_globals : list (string * Obj);             (* globals() of tool.py *)
  find_module : string → World → result Module * World;
                                                    (* importlib.import_module *)
  call_func : Func → list (string * pyval) → World → result pyval * World
}.

(** [ast.literal_eval]: on the text of a list of dictionary displays
    with string keys and values it gives that list, whichever quotes
    the text uses; what it gives on every other text is left to the
    environment. *)
Definition literal_eval (E : Env) (s : string) : result pyval :=
  match literal_records s with
  | Some rs => Return (records_value rs)
  | None => literal_eval_other E s
  end.
Arguments literal_eval : simpl never.

(** *** Computations: state passing with exceptions *)

Definition M (A : Type) : Type := World → result A * World.

Definition ret {A} (a : A) : M A := λ w, (Return a, w).
Definition raise {A} (e : exn) : M A := λ w, (Raise e, w).
Definition bind {A B} (c : M A) (k : A → M B) : M B :=
  λ w, match c w with
       | (Return a, w') => k a w'
       | (Raise e, w') => (Raise e, w')
       end.
Definition lift {A} (r : result A) : M A := λ w, (r, w).

(** [try: c except classes as e: h e]. *)
Definition try_except {A} (c : M A) (classes : list string) (h : exn → M A) : M A :=
  λ w, match c w with
       | (Return a, w') => (Return a, w')
       | (Raise e, w') =>
           if existsb (isinstance e) classes then h e w' else (Raise e, w')
       end.

Definition emit (ev : Event) : M unit :=
  λ w, (Return (), mk_world (tools_file w) (registered_functions w)
                     (uuid_draws w) (llm_calls w) (trace w ++ [ev])).

Definition set_file (f : File) : M unit :=
  λ w, (Return (), mk_world f (registered_functions w)
                     (uuid_draws w) (llm_calls w) (trace w)).

Definition get_file : M File := λ w, (Return (tools_file w), w).

Definition set_registered (name : string) (f : Func) : M unit :=
  λ w, (Return (), mk_world (tools_file w)
                     (dict_set str_eqb name f (registered_functions w))
                     (uuid_draws w) (llm_calls w) (trace w)).

#[global] Instance M_ret : MRet M := @ret.
#[global] Instance M_bind : MBind M := λ A B k c, bind c k.

(** [for x in xs: body], threading the loop-carried value. *)
Fixpoint for_each {A S} (xs : list A) (body : A → S → M S) (s : S) : M S :=
  match xs with
  | [] => ret s
  | x :: xs' => s' ← body x s; for_each xs' body s'
  end.

Definition JSONDecodeError (msg : string) : exn :=
  mk_exn ["JSONDecodeError"; "ValueError"; "Exception"; "BaseException"] msg.
Definition UnicodeDecodeError (msg : string) : exn :=
  mk_exn ["UnicodeDecodeError"; "UnicodeError"; "ValueError"; "Exception";
          "BaseException"] msg.
Definition ImportError (msg : string) : exn :=
  mk_exn ["ImportError"; "Exception"; "BaseException"] msg.
Definition ModuleNotFoundError (msg : string) : exn :=
  mk_exn ["ModuleNotFoundError"; "ImportError"; "Exception"; "BaseException"] msg.
Definition SyntaxError (msg : string) : exn :=
  mk_exn ["SyntaxError"; "Exception"; "BaseException"] msg.
Definition FileNotFoundError (msg : string) : exn :=
  mk_exn ["FileNotFoundError"; "OSError"; "Exception"; "BaseException"] msg.

(** ** [ToolManager] *)

(** [get_tools_path]: creates the document, holding [{}], when absent. *)
Definition get_tools_path : M unit :=
  f ← get_file;
  match f with
  | Missing => set_file (Json (PDict []))
  | _ => ret ()
  end.

(** [load_tools]: [json.load] of the document. *)
Definition load_tools : M tools_obj :=
  get_tools_path;;
  emit EvLoadTools;;
  f ← get_file;
  match f with
  | Json (PDict members) =>
      ret (TDict (dict_of_members key_eqb (prod_map PStr id <$> members)))
  | Json v => ret (TOther v)
  | Garbage err => raise (JSONDecodeError err)
  | Undecodable err => raise (UnicodeDecodeError err)
  | Missing => raise (FileNotFoundError "tool_template/tools.json")
  end.

(** How [json.dump] writes a dictionary key. *)
Definition json_key (k : pyval) : result string :=
  match k with
  | PStr s => Return s
  | PInt z => Return (pretty z)
  | PBool true => Return "true"
  | PBool false => Return "false"
  | PNone => Return "null"
  | _ => Raise (TypeError "keys must be str, int, float, bool or None")
  end.

Fixpoint json_members (d : list (pyval * pyval)) : result (list (string * pyval)) :=
  match d with
  | [] => Return []
  | (k, v) :: d' =>
      match json_key k with
      | Raise e => Raise e
      | Return s =>
          match json_members d' with
          | Raise e => Raise e
          | Return ms => Return ((s, v) :: ms)
          end
      end
  end.

Definition json_dump (tools : tools_obj) : result pyval :=
  match tools with
  | TDict d =>
      match json_members d with
      | Return ms => Return (PDict ms)
      | Raise e => Raise e
      end
  | TOther v => Return v
  end.

(** [save_tools]: the document is truncated, then written. *)
Definition save_tools (tools : tools_obj) : M unit :=
  get_tools_path;;
  emit EvSaveTools;;
  match json_dump tools with
  | Return v => set_file (Json v)
  | Raise e => set_file (Garbage EmptyString);; raise e
  end.

(** [ToolManager.register_function(func, metadata)]. *)
Definition ToolManager_register_function (func : Func) (metadata : pyval) : M unit :=
  set_registered (fn_name func) func;;
  tools ← load_tools;
  tools' ← lift (tools_setitem tools (PStr (fn_name func)) metadata);
  save_tools tools'.

Section with_env.
Context (E : Env).

Definition uuid4 : M string :=
  λ w, (Return (uuid4_str E (uuid_draws w)),
        mk_world (tools_file w) (registered_functions w)
          (S (uuid_draws w)) (llm_calls w) (trace w)).

Definition llm_invoke (prompt : string) : M string :=
  λ w, (llm_content E (llm_calls w) prompt,
        mk_world (tools_file w) (registered_functions w)
          (uuid_draws w) (S (llm_calls w)) (trace w ++ [EvLLM prompt])).

Definition logging_info (msg : string) : M unit := emit (EvLog "INFO" msg).
Definition logging_error (msg : string) : M unit := emit (EvLog "ERROR" msg).

(** ** [function_tool] *)

(** [str(annotation) if annotation != empty else "Any"]. *)
Definition annotation_str (a : option string) : pyval :=
  match a with
  | Some s => PStr s
  | None => PStr "Any"
  end.

(** [(func.__doc__ or '').strip()]. *)
Definition docstring_of (doc : option string) : string :=
  strip (match doc with
         | None | Some EmptyString => EmptyString
         | Some s => s
         end).

Definition arguments_of (params : list Param) : list (string * pyval) :=
  dict_of_members str_eqb
    ((λ p, (param_name p, annotation_str (param_annotation p))) <$> params).

(** The [metadata] dictionary built by the decorator. *)
Definition metadata (func : Func) (module_path call_id : string) : pyval :=
  PDict [
    ("tool_name", PStr (fn_name func));
    ("arguments", PDict (arguments_of (fn_params func)));
    ("return", annotation_str (fn_return func));
    ("docstring", PStr (docstring_of (fn_doc func)));
    ("module_path", PStr module_path);
    ("tool_call_id", PStr ("tool_" +:+ call_id));
    ("is_runtime", PBool (str_eqb module_path "__runtime__"))
  ].

Definition function_tool (func : Func) : M Func :=
  let module_path := "__runtime__" in
  (if str_eqb module_path "__runtime__" then
     call_id ← uuid4;
     ToolManager_register_function func (metadata func module_path call_id);;
     logging_info ("Registered tool: " +:+ fn_name func +:+ " (" +:+
                   (if str_eqb module_path "__runtime__" then "runtime"
                    else "file-based") +:+ ")")
   else ret ());;
  ret func.

(** A module body that decorates the given functions one after the
    other. *)
Definition register_all (funcs : list Func) : M unit :=
  for_each funcs (λ f _, function_tool f;; ret ()) ().

(** ** [register_function] *)

(** [importlib.import_module(module_path, package=__package__)]; a
    [module_path] that is not a string has no [startswith]. *)
Definition import_module (module_path : pyval) : M Module :=
  match module_path with
  | PStr s => emit (EvImport s);; find_module E s
  | _ => raise (AttributeError "object has no attribute 'startswith'")
  end.

Definition registration_prompt (module_source module_path : string) : string :=
  "Analyze this module and return a list of tools in JSON format:" +:+
  "- Module code:" +:+
  module_source +:+
  "Format: Let's return a list of json format without further explaination and without ```json characters markdown and keep module_path unchange." +:+
  "[{{" +:+
  dq +:+ "tool_name" +:+ dq +:+ ": " +:+ dq +:+ "The function" +:+ dq +:+ "," +:+
  dq +:+ "arguments" +:+ dq +:+ ": " +:+ dq +:+
    "A dictionary of keyword-arguments to execute tool. Let's keep default value if it was set"
    +:+ dq +:+ "," +:+
  dq +:+ "return" +:+ dq +:+ ": " +:+ dq +:+ "Return value of this tool" +:+ dq +:+ "," +:+
  dq +:+ "docstring" +:+ dq +:+ ": " +:+ dq +:+ "Docstring of this tool" +:+ dq +:+ "," +:+
  dq +:+ "dependencies" +:+ dq +:+ ": " +:+ dq +:+
    "List of libraries need to run this tool" +:+ dq +:+ "," +:+
  dq +:+ "module_path" +:+ dq +:+ ": " +:+ dq +:+ module_path +:+ dq +:+
  "}}]".

(** One iteration of [for tool in new_tools]. *)
Definition register_entry (module_path : string) (tool : pyval)
    (tools : tools_obj) : M tools_obj :=
  tool ← lift (setitem tool "module_path" (PStr module_path));
  name ← lift (getitem tool "tool_name");
  tools ← lift (tools_setitem tools name tool);
  call_id ← uuid4;
  tool ← lift (setitem tool "tool_call_id" (PStr ("tool_" +:+ call_id)));
  tools ← lift (tools_setitem tools name tool);
  shown ← lift (getitem tool "tool_name");
  logging_info ("Registered " +:+ format_val E shown +:+ ":" +:+ nl +:+
                format_val E tool);;
  ret tools.

Definition register_function (module_path : string) : M unit :=
  module_source ←
    try_except
      (module ← import_module (PStr module_path);
       lift (mod_source module))
      ["ImportError"; "ValueError"]
      (λ e, raise (ValueError ("Failed to load module " +:+ module_path +:+
                               ": " +:+ exn_msg e)));
  let prompt := registration_prompt module_source module_path in
  response ← llm_invoke prompt;
  new_tools ←
    try_except
      (lift (literal_eval E (strip response)))
      ["ValueError"; "SyntaxError"]
      (λ e, raise (ValueError ("Invalid tool format from LLM: " +:+ exn_msg e)));
  tools ← load_tools;
  items ← lift (iterate new_tools);
  tools ← for_each items (register_entry module_path) tools;
  save_tools tools;;
  logging_info ("Completed registration for module " +:+ module_path).

(** ** [tool_calling] *)

Definition selection_prompt (task tools_json : string) : string :=
  nl +:+
  "    Select a tool for this task from available tools:" +:+ nl +:+
  "    - Task: " +:+ task +:+ nl +:+
  "    - Available tools: " +:+ tools_json +:+ nl +:+
  "    " +:+ nl +:+
  "    Return format: Only return dictionary without explaination and do not need bounded in ```python``` or ```json```" +:+ nl +:+
  "    {" +:+ nl +:+
  "        " +:+ dq +:+ "tool_name" +:+ dq +:+ ": " +:+ dq +:+ "The function" +:+ dq +:+ "," +:+ nl +:+
  "        " +:+ dq +:+ "arguments" +:+ dq +:+ ": " +:+ dq +:+
    "A dictionary of keyword-arguments to execute tool_name" +:+ dq +:+ "," +:+ nl +:+
  "        " +:+ dq +:+ "module_path" +:+ dq +:+ ": " +:+ dq +:+
    "module_path to import this tool" +:+ dq +:+ nl +:+
  "    }" +:+ nl +:+
  "    ".

(** [func_name in globals()] together with [globals()[func_name]]. *)
Definition lookup_globals (func_name : pyval) : result (option Obj) :=
  match func_name with
  | PStr s => Return (dict_get str_eqb s (module_globals E))
  | PList _ | PDict _ => Raise (TypeError "unhashable type")
  | _ => Return None
  end.

(** [getattr(module, func_name)]. *)
Definition getattr (module : Module) (func_name : pyval) : result Obj :=
  match func_name with
  | PStr s =>
      match dict_get str_eqb s (mod_attrs module) with
      | Some o => Return o
      | None => Raise (AttributeError ("module has no attribute '" +:+ s +:+ "'"))
      end
  | _ => Raise (TypeError "attribute name must be string")
  end.

(** [func( **arguments)]. *)
Definition call (func : Obj) (arguments : pyval) : M pyval :=
  match arguments with
  | PDict kwargs =>
      match func with
      | OFunc f => call_func E f kwargs
      | OOther _ => raise (TypeError "object is not callable")
      end
  | _ => raise (TypeError "argument after ** must be a mapping")
  end.

(** The body of the [try] block of [tool_calling]. *)
Definition dispatch (tool_data : string) : M pyval :=
  tool_call ← lift (json_loads E tool_data);
  func_name ← lift (getitem tool_call "tool_name");
  arguments ← lift (getitem tool_call "arguments");
  module_path ← lift (getitem tool_call "module_path");
  found ← lift (lookup_globals func_name);
  match found with
  | Some f => call f arguments
  | None =>
      module ← import_module module_path;
      func ← lift (getattr module func_name);
      call func arguments
  end.

Definition tool_calling (task : string) : M pyval :=
  tools ← load_tools;
  let prompt := selection_prompt task (json_dumps E tools) in
  response ← llm_invoke prompt;
  tool_data ← lift (extract_json response);
  if falsy tool_data || contains "None" (default EmptyString tool_data) then
    content ← llm_invoke task;
    ret (PStr content)
  else
    try_except
      (dispatch (default EmptyString tool_data))
      ["JSONDecodeError"; "ImportError"; "AttributeError"]
      (λ e, logging_error ("Tool execution failed: " +:+ exn_msg e);;
            ret PNone).

End with_env.

(** ** Notions used to state the properties *)

(** The selection phase of [tool_calling]: the registry is loaded, the
    LLM is asked, and the extractor runs on its answer. *)
Definition select (E : Env) (task : string) : M (option string) :=
  tools ← load_tools;
  response ← llm_invoke E (selection_prompt task (json_dumps E tools));
  lift (extract_json response).

(** The exception classes named by the [except] clause of
    [tool_calling]. *)
Definition dispatch_caught (e : exn) : bool :=
  existsb (isinstance e) ["JSONDecodeError"; "ImportError"; "AttributeError"].

(** The exception classes named by the [except] clause around
    [ast.literal_eval]. *)
Definition parse_caught (e : exn) : bool :=
  existsb (isinstance e) ["ValueError"; "SyntaxError"].

(** The world after one more call of the LLM. *)
Definition asked (prompt : string) (w : World) : World :=
  mk_world (tools_file w) (registered_functions w) (uuid_draws w)
    (S (llm_calls w)) (trace w ++ [EvLLM prompt]).

(** The world after one more line in the log. *)
Definition logged (level msg : string) (w : World) : World :=
  mk_world (tools_file w) (registered_functions w) (uuid_draws w)
    (llm_calls w) (trace w ++ [EvLog level msg]).

(** The world in which the import of [path] starts. *)
Definition importing (path : string) (w : World) : World :=
  mk_world (tools_file w) (registered_functions w) (uuid_draws w)
    (llm_calls w) (trace w ++ [EvImport path]).

(** The two ways in which [tool_calling] obtains the callable: from the
    namespace of [tool.py], or from the module it imports (in the world
    reached after the import). *)
Inductive resolves (E : Env) (name : string) (module_path : pyval) (w : World) :
    Obj → World → Prop :=
| resolves_namespace f :
    dict_get str_eqb name (module_globals E) = Some f →
    resolves E name module_path w f w
| resolves_import path m w' f :
    dict_get str_eqb name (module_globals E) = None →
    module_path = PStr path →
    find_module E path (importing path w) = (Return m, w') →
    dict_get str_eqb name (mod_attrs m) = Some f →
    resolves E name module_path w f w'.

(** The extracted text parses, as JSON, to an object that names the
    tool [name], the keyword arguments [kwargs] and [module_path]. *)
Definition parses_to (E : Env) (data name : string)
    (kwargs : list (string * pyval)) (module_path : pyval) : Prop :=
  ∃ tool_call,
    json_loads E data = Return tool_call ∧
    getitem tool_call "tool_name" = Return (PStr name) ∧
    getitem tool_call "arguments" = Return (PDict kwargs) ∧
    getitem tool_call "module_path" = Return module_path.

(** A parsed selection naming [name], [arguments] and [module_path]. *)
Definition selection (name : string) (kwargs : list (string * pyval))
    (module_path : pyval) : pyval :=
  PDict [("tool_name", PStr name); ("arguments", PDict kwargs);
         ("module_path", module_path)].

Definition is_dict (v : pyval) : bool :=
  match v with
  | PDict _ => true
  | _ => false
  end.



(** The record that Module Registration stores for an entry. *)
Definition entry_record (module_path call_id : string)
    (entry : list (string * pyval)) : list (string * pyval) :=
  sset "tool_call_id" (PStr ("tool_" +:+ call_id))
    (sset "module_path" (PStr module_path) entry).

(** The registry after upserting the entries one after the other, the
    [i]-th with the [n + i]-th identifier. *)
Fixpoint upsert_entries (E : Env) (module_path : string) (n : nat)
    (entries : list (string * list (string * pyval)))
    (reg : list (string * pyval)) : list (string * pyval) :=
  match entries with
  | [] => reg
  | (name, entry) :: rest =>
      upsert_entries E module_path (S n) rest
        (sset name (PDict (entry_record module_path (uuid4_str E n) entry)) reg)
  end.

(** The log lines of the registration loop. *)
Fixpoint entry_logs (E : Env) (module_path : string) (n : nat)
    (entries : list (string * list (string * pyval))) : list Event :=
  match entries with
  | [] => []
  | (name, entry) :: rest =>
      EvLog "INFO" ("Registered " +:+ format_val E (PStr name) +:+ ":" +:+ nl +:+
                    format_val E (PDict (entry_record module_path (uuid4_str E n) entry)))
      :: entry_logs E module_path (S n) rest
  end.

(** The registry a document holds, as [load_tools] reads it. *)
Definition registry_of (f : File) : option (list (string * pyval)) :=
  match f with
  | Missing => Some []
  | Json (PDict members) => Some (dict_of_members str_eqb members)
  | _ => None
  end.

(** The in-memory form of a string-keyed registry. *)
Definition in_memory (reg : list (string * pyval)) : list (pyval * pyval) :=
  prod_map PStr id <$> reg.

(** ** A small concrete environment *)

(** Three tools: [add] returns the sum of its arguments, [boom] fails
    with an [AttributeError] of its own, [div] divides by zero. *)
Definition add_func : Func :=
  mk_func "add"
    [mk_param "x" (Some "<class 'int'>"); mk_param "y" (Some "<class 'int'>")]
    (Some "<class 'int'>") (Some " Add two numbers. ") 1.
Definition boom_func : Func := mk_func "boom" [] None None 2.
Definition div_func : Func := mk_func "div" [mk_param "n" None] None None 3.

Definition ZeroDivisionError (msg : string) : exn :=
  mk_exn ["ZeroDivisionError"; "ArithmeticError"; "Exception"; "BaseException"] msg.

Definition demo_call (f : Func) (kwargs : list (string * pyval)) (w : World) :
    result pyval * World :=
  match fn_id f with
  | 1 =>
      match sget "x" kwargs, sget "y" kwargs with
      | Some (PInt x), Some (PInt y) => (Return (PInt (x + y)), w)
      | _, _ => (Raise (TypeError "unsupported operand type(s) for +"), w)
      end
  | 2 => (Raise (AttributeError "'NoneType' object has no attribute 'name'"), w)
  | 3 => (Raise (ZeroDivisionError "division by zero"), w)
  | _ => (Raise (TypeError "got an unexpected keyword argument"), w)
  end.

(** The names bound at the top level of [tool.py]. *)
Definition tool_py_globals : list (string * Obj) :=
  [("__name__", OOther "str"); ("__doc__", OOther "NoneType");
   ("__package__", OOther "str"); ("__loader__", OOther "loader");
   ("__spec__", OOther "ModuleSpec"); ("__file__", OOther "str");
   ("__cached__", OOther "str"); ("__builtins__", OOther "dict");
   ("sys", OOther "module"); ("os", OOther "module");
   ("json", OOther "module"); ("inspect", OOther "module");
   ("importlib", OOther "module"); ("logging", OOther "module");
   ("wraps", OFunc (mk_func "wraps" [] None None 100));
   ("Dict", OOther "typing"); ("Any", OOther "typing");
   ("Optional", OOther "typing"); ("Callable", OOther "typing");
   ("ast", OOther "module"); ("uuid", OOther "module");
   ("llm", OOther "client"); ("logger", OOther "Logger");
   ("ToolManager", OOther "type");
   ("function_tool", OFunc (mk_func "function_tool" [mk_param "func" None] None None 101));
   ("register_function",
    OFunc (mk_func "register_function" [mk_param "module_path" (Some "<class 'str'>")]
             (Some "None") None 102));
   ("tool_calling",
    OFunc (mk_func "tool_calling" [mk_param "task" (Some "<class 'str'>")]
             (Some "typing.Any") None 103));
   ("extract_json",
    OFunc (mk_func "extract_json" [mk_param "text" (Some "<class 'str'>")]
             (Some "typing.Optional[str]") None 104))].

Definition calc_module : Module :=
  mk_module [("add", OFunc add_func); ("boom", OFunc boom_func);
             ("div", OFunc div_func)]
    (Return "def add(x, y): return x + y").

Definition demo_find_module (path : string) (w : World) : result Module * World :=
  if str_eqb path "calc" then (Return calc_module, w)
  else (Raise (ModuleNotFoundError ("No module named '" +:+ path +:+ "'")), w).

(** The JSON text of a selection. *)
Definition selection_text (name arguments module_path : string) : string :=
  "{" +:+ dq +:+ "tool_name" +:+ dq +:+ ": " +:+ dq +:+ name +:+ dq +:+ ", " +:+
  dq +:+ "arguments" +:+ dq +:+ ": " +:+ arguments +:+ ", " +:+
  dq +:+ "module_path" +:+ dq +:+ ": " +:+ dq +:+ module_path +:+ dq +:+ "}".

Definition add_arguments_text : string :=
  "{" +:+ dq +:+ "x" +:+ dq +:+ ": 2, " +:+ dq +:+ "y" +:+ dq +:+ ": 3}".

(** What [json.loads] gives on the texts used below. *)
Definition demo_json_loads (s : string) : result pyval :=
  default (Raise (JSONDecodeError "Expecting value: line 1 column 1 (char 0)")) $
  dict_get str_eqb s
    [(selection_text "add" add_arguments_text "__runtime__",
      Return (selection "add" [("x", PInt 2); ("y", PInt 3)] (PStr "__runtime__")));
     (selection_text "add" add_arguments_text "calc",
      Return (selection "add" [("x", PInt 2); ("y", PInt 3)] (PStr "calc")));
     (selection_text "boom" "{}" "calc", Return (selection "boom" [] (PStr "calc")));
     (selection_text "div" "{}" "calc", Return (selection "div" [] (PStr "calc")));
     ("{}", Return (PDict []))].

Definition demo_entries_text : string :=
  "[{'tool_name': 'add', 'module_path': 'elsewhere'}, {'tool_name': 'div'}]".

(** What [ast.literal_eval] gives on the texts used below that are not
    lists of records. *)
Definition demo_literal_eval (s : string) : result pyval :=
  default (Raise (ValueError "malformed node or string")) $
  dict_get str_eqb s
    [("{}", Return (PDict []));
     ("[1]", Return (PList [PInt 1]));
     ("[", Raise (SyntaxError "'[' was never closed"))].


Definition demo_format (v : pyval) : string :=
  match v with
  | PStr s => s
  | _ => "<value>"
  end.

(** An environment whose LLM answers [response] first and ["42"] to
    every later question. *)
Definition demo_env (response : string) : Env :=
  mk_env (λ n _, Return (match n with 0 => response | _ => "42" end))
    (λ n, pretty n)
    demo_json_loads (λ _, "{}") demo_literal_eval demo_format
    tool_py_globals demo_find_module demo_call.

(** A fresh process next to no registry document. *)
Definition initial_world : World := mk_world Missing [] 0 0 [].

(** The document once [get_tools_path] has run. *)
Definition ensure_file (f : File) : File :=
  match f with
  | Missing => Json (PDict [])
  | _ => f
  end.

(** The message logged by [function_tool]. *)
Definition registered_msg (func : Func) : string :=
  "Registered tool: " +:+ fn_name func +:+ " (runtime)".

(** The world after a successful static registration of [func] on top
    of the registry [reg]. *)
Definition statically_registered (E : Env) (func : Func)
    (reg : list (string * pyval)) (w : World) : World :=
  mk_world
    (Json (PDict (sset (fn_name func)
                    (metadata func "__runtime__" (uuid4_str E (uuid_draws w))) reg)))
    (dict_set str_eqb (fn_name func) func (registered_functions w))
    (S (uuid_draws w)) (llm_calls w)
    (trace w ++ [EvLoadTools; EvSaveTools; EvLog "INFO" (registered_msg func)]).

(** The registry after the static registration of [funcs], one after
    the other, the first with the [n]-th identifier. *)
Fixpoint register_records (E : Env) (n : nat) (funcs : list Func)
    (reg : list (string * pyval)) : list (string * pyval) :=
  match funcs with
  | [] => reg
  | f :: rest =>
      register_records E (S n) rest
        (sset (fn_name f) (metadata f "__runtime__" (uuid4_str E n)) reg)
  end.

(** A second function that is also called [add]. *)
Definition add_func2 : Func := mk_func "add" [mk_param "a" None] None None 4.

(** A function with an unannotated parameter, no return annotation and
    a documentation string that ends in a no-break space. *)
Definition nbsp : string :=
  String (ascii_of_nat 194) (String (ascii_of_nat 160) EmptyString).
Definition scale_func : Func :=
  mk_func "scale"
    [mk_param "value" (Some "<class 'float'>"); mk_param "factor" None]
    None (Some (nl +:+ "    Scale a value." +:+ nbsp +:+ nl +:+ "    ")) 5.

(** The record the registry is to hold for a function decorated with
    the identifier [call_id]: every field is read off the function. *)
Definition runtime_record (f : Func) (call_id : string) : pyval :=
  PDict
    [("tool_name", PStr (fn_name f));
     ("arguments",
      PDict ((λ p, (param_name p, PStr (default "Any" (param_annotation p))))
             <$> fn_params f));
     ("return", PStr (default "Any" (fn_return f)));
     ("docstring", PStr (strip (default EmptyString (fn_doc f))));
     ("module_path", PStr "__runtime__");
     ("tool_call_id", PStr ("tool_" +:+ call_id));
     ("is_runtime", PBool true)].

(** The world in which the demo LLM has answered the selection prompt
    for the task ["What is 6 times 7?"] next to an empty registry. *)
Definition fallback_world : World :=
  asked (selection_prompt "What is 6 times 7?" "{}")
    (mk_world (Json (PDict [])) [] 0 0 [EvLoadTools]).

(** Selections of the demo LLM, and the worlds in which the dispatcher
    then runs. *)
Definition boom_env : Env := demo_env (selection_text "boom" "{}" "calc").
Definition div_env : Env := demo_env (selection_text "div" "{}" "calc").
Definition add_env : Env :=
  demo_env (selection_text "add" add_arguments_text "__runtime__").

Definition selected (E : Env) (task : string) (w : World) : World :=
  (select E task w).2.

(** What [register_function] does with the parsed answer of the LLM. *)
Definition store_entries (E : Env) (module_path : string) (new_tools : pyval) :
    M unit :=
  tools ← load_tools;
  items ← lift (iterate new_tools);
  tools ← for_each items (register_entry E module_path) tools;
  save_tools tools;;
  logging_info ("Completed registration for module " +:+ module_path).

(** The class of an exception is not [ValueError] itself. *)
Definition not_value_error (e : exn) : Prop :=
  head (exn_mro e) ≠ Some "ValueError".

(** A computation raises only exceptions that satisfy [P]. *)
Definition raises_only {A} (P : exn → Prop) (c : M A) : Prop :=
  ∀ w e w', c w = (Raise e, w') → P e.

(** The entries of [demo_entries_text], with their names. *)
Definition demo_entries : list (string * list (string * pyval)) :=
  [("add", [("tool_name", PStr "add"); ("module_path", PStr "elsewhere")]);
   ("div", [("tool_name", PStr "div")])].


(** ** A second concrete environment *)

(** The table of registered functions after decorating [funcs]. *)
Definition registered_after (funcs : list Func) (table : list (string * Func)) :
    list (string * Func) :=
  foldl (λ acc f, dict_set str_eqb (fn_name f) f acc) table funcs.

(** The events of decorating [funcs]. *)
Definition registration_events (funcs : list Func) : list Event :=
  funcs ≫= λ f, [EvLoadTools; EvSaveTools; EvLog "INFO" (registered_msg f)].


Definition extra_call (f : Func) (kwargs : list (string * pyval)) (w : World) :
    result pyval * World :=
  match fn_id f with
  | 104 =>
      match kwargs with
      | [("text", PStr text)] =>
          match extract_json text with
          | Return (Some s) => (Return (PStr s), w)
          | Return None => (Return PNone, w)
          | Raise e => (Raise e, w)
          end
      | _ => (Raise (TypeError "extract_json() got unexpected arguments"), w)
      end
  | _ => demo_call f kwargs w
  end.

Definition text_argument : string :=
  "{" +:+ dq +:+ "text" +:+ dq +:+ ": " +:+ dq +:+ "x{y}z" +:+ dq +:+ "}".

(** A selection whose [module_path] is [null]. *)
Definition null_path_text : string :=
  "{" +:+ dq +:+ "tool_name" +:+ dq +:+ ": " +:+ dq +:+ "mul" +:+ dq +:+ ", " +:+
  dq +:+ "arguments" +:+ dq +:+ ": {}, " +:+
  dq +:+ "module_path" +:+ dq +:+ ": null}".

(** What [json.loads] gives on the further texts used below. *)
Definition extra_json_loads (s : string) : result pyval :=
  default (demo_json_loads s) $
  dict_get str_eqb s
    [(selection_text "extract_json" text_argument "nowhere",
      Return (selection "extract_json" [("text", PStr "x{y}z")]
                (PStr "nowhere")));
     (selection_text "mul" "{}" "calc", Return (selection "mul" [] (PStr "calc")));
     (null_path_text, Return (selection "mul" [] PNone));
     (selection_text "json" "{}" "calc", Return (selection "json" [] (PStr "calc")));
     (selection_text "add" "[2, 3]" "calc",
      Return (PDict [("tool_name", PStr "add");
                     ("arguments", PList [PInt 2; PInt 3]);
                     ("module_path", PStr "calc")]))].

Definition missing_name_text : string :=
  "[{'tool_name': 'add'}, {'docstring': 'nameless'}, {'tool_name': 'div'}]".

(** An answer that is one dictionary instead of a list of them. *)
Definition single_entry_text : string := "{'tool_name': 'add'}".

(** What [ast.literal_eval] gives on the further texts used below. *)
Definition extra_literal_eval (s : string) : result pyval :=
  default (demo_literal_eval s) $
  dict_get str_eqb s
    [(single_entry_text, Return (PDict [("tool_name", PStr "add")]))].

(** A module without source, and a failing LLM client. *)
Definition builtin_module : Module :=
  mk_module [] (Raise (TypeError "<module 'sys' (built-in)> is a built-in module")).

Definition extra_find_module (path : string) (w : World) : result Module * World :=
  if str_eqb path "sys" then (Return builtin_module, w)
  else demo_find_module path w.

Definition ConnectionError (msg : string) : exn :=
  mk_exn ["ConnectionError"; "OSError"; "Exception"; "BaseException"] msg.

Definition extra_env (response : string) : Env :=
  mk_env (λ n _, Return (match n with 0 => response | _ => "42" end))
    (λ n, pretty n)
    extra_json_loads (λ _, "{}") extra_literal_eval demo_format
    tool_py_globals extra_find_module extra_call.

Definition offline_env : Env :=
  mk_env (λ _ _, Raise (ConnectionError "Connection refused"))
    (λ n, pretty n)
    extra_json_loads (λ _, "{}") extra_literal_eval demo_format
    tool_py_globals extra_find_module extra_call.

(** What [json.load] raises on a document it cannot read. *)
Inductive unreadable : File → exn → Prop :=
| unreadable_text err : unreadable (Garbage err) (JSONDecodeError err)
| unreadable_bytes err : unreadable (Undecodable err) (UnicodeDecodeError err).

(** A process next to a document that is not JSON, next to one that is
    written in UTF-16, next to one that holds a JSON list, and next to
    one that holds two records. *)
Definition corrupt_world : World :=
  mk_world (Garbage "Expecting value: line 1 column 1 (char 0)") [] 0 0 [].
Definition utf16_world : World :=
  mk_world
    (Undecodable
       "'utf-8' codec can't decode byte 0xff in position 0: invalid start byte")
    [] 0 0 [].
Definition list_world : World := mk_world (Json (PList [])) [] 0 0 [].
Definition two_records : list (string * pyval) :=
  [("add", PDict [("tool_name", PStr "add"); ("docstring", PStr "old")]);
   ("mul", PDict [("tool_name", PStr "mul")])].
Definition stocked_world : World := mk_world (Json (PDict two_records)) [] 0 0 [].

(** The registry state is kept: the document holds what it held (an
    absent document counting as the empty one), and the table of
    registered functions and the identifiers drawn are the same. *)
Definition store_kept (w w' : World) : Prop :=
  ensure_file (tools_file w') = ensure_file (tools_file w) ∧
  registered_functions w' = registered_functions w ∧
  uuid_draws w' = uuid_draws w.

Definition keeps_store {A} (c : M A) : Prop := ∀ w, store_kept w (c w).2.

(** A parsed answer that is one value instead of a sequence of
    entries: [None], a Boolean, an integer, a non-empty string or a
    non-empty dictionary. *)
Definition single_value (v : pyval) : Prop :=
  match v with
  | PNone | PBool _ | PInt _ => True
  | PStr s => s ≠ EmptyString
  | PDict d => d ≠ []
  | PList _ => False
  end.

(** An entry the registration loop cannot store: not a dictionary, or
    a dictionary without [tool_name]. *)
Definition nameless (tool : pyval) : bool :=
  match tool with
  | PDict d => bool_decide (sget "tool_name" d = None)
  | _ => true
  end.

(** Unfolds the plumbing of [M]. *)
Ltac unfold_monad :=
  unfold mbind, mret, M_bind, M_ret, bind, ret, raise, lift, emit, set_file,
    get_file, set_registered in *.

(** * Properties *)

(** ** The extractor *)

Section extract_facts.
Implicit Types (text pre rest g : list ascii) (d k : nat).

Lemma find_from_absent c text i :
  (0 ≤ i)%Z → find_from c text i = (-1)%Z ↔ c ∉ text.
Proof.
  revert i. induction text as [|x text IH]; intros i Hi; simpl.
  - split; [intros _; apply not_elem_of_nil|done].
  - destruct (decide (x = c)) as [->|Hne].
    + split; [lia|intros []; left].
    + rewrite IH by lia. rewrite not_elem_of_cons. split; [by split|by intros [_ ?]].
Qed.

Lemma find_from_split c text i :
  find_from c text i ≠ (-1)%Z → (0 ≤ i)%Z →
  ∃ pre rest, text = pre ++ c :: rest ∧ (c ∉ pre) ∧
    find_from c text i = (i + Z.of_nat (length pre))%Z.
Proof.
  revert i. induction text as [|x text IH]; intros i Hf Hi; simpl in *; [done|].
  destruct (decide (x = c)) as [->|Hne].
  - exists [], text. split_and!; [done|apply not_elem_of_nil|simpl; lia].
  - destruct (IH _ Hf) as (pre & rest & -> & Hpre & ->); [lia|].
    exists (x :: pre), rest. split_and!; [done| |simpl; lia].
    rewrite not_elem_of_cons. by split.
Qed.

Lemma removelast_replicate d (x : ascii) :
  removelast (replicate (S d) x) = replicate d x.
Proof.
  induction d as [|d IH]; [done|]. cbn [replicate] in *.
  change (x :: removelast (x :: replicate d x) = x :: replicate d x).
  by rewrite IH.
Qed.

Lemma pop_replicate d :
  pop (replicate (S d) lbrace) = Return (replicate d lbrace).
Proof.
  change (Return (removelast (replicate (S d) lbrace)) = Return (replicate d lbrace)).
  by rewrite removelast_replicate.
Qed.

Lemma replicate_snoc d (x : ascii) :
  replicate d x ++ [x] = replicate (S d) x.
Proof. induction d as [|d IH]; [done|]. simpl in *. by rewrite IH. Qed.

(** The index loop agrees with the recursion on the remaining text. *)
Lemma extract_loop_close_at text start rest : ∀ pre d,
  text = pre ++ rest → 1 ≤ d →
  extract_loop text start (seq (length pre) (length rest)) (replicate d lbrace)
  = Return ((λ k, slice text start (length pre + k)) <$> close_at d rest).
Proof.
  induction rest as [|c rest IH]; intros pre d Ht Hd; [done|].
  cbn [length seq extract_loop close_at].
  assert (text !! length pre = Some c) as ->
    by (rewrite Ht; apply list_lookup_middle; done).
  assert (Hstep : ∀ d', 1 ≤ d' →
    extract_loop text start (seq (S (length pre)) (length rest)) (replicate d' lbrace)
    = Return ((λ k, slice text start (length pre + k)) <$> (S <$> close_at d' rest))).
  { intros d' Hd'. specialize (IH (pre ++ [c]) d').
    rewrite length_app in IH. simpl in IH.
    replace (length pre + 1) with (S (length pre)) in IH by lia.
    rewrite IH; [|by rewrite <- app_assoc|done].
    f_equal. destruct (close_at d' rest); simpl; [|done].
    do 2 f_equal. lia. }
  destruct (decide (c = lbrace)).
  - rewrite replicate_snoc. apply Hstep. lia.
  - destruct (decide (c = rbrace)); [|by apply Hstep].
    destruct d as [|[|d]]; [lia| |].
    + simpl. done.
    + rewrite pop_replicate. cbn [replicate]. apply (Hstep (S d)). lia.
Qed.

Lemma extract_chars_absent text :
  lbrace ∉ text → extract_chars text = Return None.
Proof.
  intros H. unfold extract_chars, find.
  rewrite decide_True; [done|]. by apply find_from_absent.
Qed.

Lemma extract_chars_present pre rest :
  lbrace ∉ pre →
  extract_chars (pre ++ lbrace :: rest)
  = Return ((λ k, take (S k) (lbrace :: rest)) <$> close_at 1 rest).
Proof.
  intros Hpre. unfold extract_chars, find.
  set (text := pre ++ lbrace :: rest).
  assert (Hin : lbrace ∈ text) by (apply elem_of_app; right; left).
  assert (Hf : find_from lbrace text 0 ≠ (-1)%Z).
  { intros Hf. apply find_from_absent in Hf; [done|lia]. }
  rewrite decide_False by done.
  destruct (find_from_split _ _ _ Hf) as (pre' & rest' & Ht & Hpre' & ->); [lia|].
  assert (pre' = pre) as ->.
  { clear -Ht Hpre Hpre'. subst text. revert pre' Ht Hpre Hpre'.
    induction pre as [|x pre IH]; intros [|y pre'] Ht Hp Hp'; simplify_eq/=.
    - done.
    - exfalso. apply Hp'. left.
    - exfalso. apply Hp. left.
    - f_equal. apply IH; [done|..].
      + intros ?; apply Hp; by right.
      + intros ?; apply Hp'; by right. }
  replace (Z.to_nat (0 + Z.of_nat (length pre))) with (length pre) by lia.
  replace (length text - length pre) with (S (length rest)).
  2:{ subst text. rewrite length_app. simpl. lia. }
  cbn [seq extract_loop].
  assert (text !! length pre = Some lbrace) as ->
    by (apply list_lookup_middle; done).
  rewrite decide_True by done. simpl app.
  pose proof (extract_loop_close_at text (length pre) rest (pre ++ [lbrace]) 1) as HL.
  rewrite length_app in HL. simpl in HL.
  replace (length pre + 1) with (S (length pre)) in HL by lia.
  rewrite HL; [|by subst text; rewrite <- app_assoc|done].
  f_equal. destruct (close_at 1 rest) as [k|]; simpl; [|done].
  f_equal. unfold slice. subst text.
  rewrite drop_app_length.
  by replace (S (length pre + k) - length pre) with (S k) by lia.
Qed.

Lemma close_at_Some rest : ∀ d k,
  1 ≤ d → close_at d rest = Some k →
  1 ≤ k ≤ length rest ∧ (Z.of_nat d + depth (take k rest) = 0)%Z ∧
  ∀ j, j < k → (0 < Z.of_nat d + depth (take j rest))%Z.
Proof.
  induction rest as [|c rest IH]; intros d k Hd Hc; [done|].
  cbn [close_at] in Hc.
  assert (Hrec : ∀ d' k' (δ : Z), 1 ≤ d' → close_at d' rest = Some k' →
    (Z.of_nat d' = Z.of_nat d + δ)%Z →
    (∀ l, depth (c :: l) = δ + depth l)%Z →
    1 ≤ S k' ≤ length (c :: rest) ∧
    (Z.of_nat d + depth (take (S k') (c :: rest)) = 0)%Z ∧
    ∀ j, j < S k' → (0 < Z.of_nat d + depth (take j (c :: rest)))%Z).
  { intros d' k' δ Hd' Hk' Hδ Hdep.
    destruct (IH _ _ Hd' Hk') as (Hlen & Hz & Hpos).
    split_and!; [lia|simpl length; lia| |].
    - cbn [take]. rewrite Hdep. lia.
    - intros [|j] Hj; [simpl; lia|]. cbn [take]. rewrite Hdep.
      specialize (Hpos j). lia. }
  destruct (decide (c = lbrace)) as [->|Hl].
  - destruct (close_at (S d) rest) as [k'|] eqn:Hk'; simpl in Hc; simplify_eq.
    apply (Hrec (S d) k' 1%Z); [lia|done|lia|].
    intros l. cbn [depth]. by rewrite decide_True.
  - destruct (decide (c = rbrace)) as [->|Hr].
    + destruct d as [|[|d]]; [lia| |].
      * simplify_eq. split_and!; [lia|simpl; lia|done|].
        intros j Hj. assert (j = 0) as -> by lia. simpl. lia.
      * destruct (close_at (S d) rest) as [k'|] eqn:Hk'; simpl in Hc; simplify_eq.
        apply (Hrec (S d) k' (-1)%Z); [lia|done|lia|].
        intros l. cbn [depth]. rewrite decide_False by done. by rewrite decide_True.
    + destruct (close_at d rest) as [k'|] eqn:Hk'; simpl in Hc; simplify_eq.
      apply (Hrec d k' 0%Z); [lia|done|lia|].
      intros l. cbn [depth]. by rewrite !decide_False.
Qed.

Lemma close_at_None rest : ∀ d,
  1 ≤ d → close_at d rest = None →
  ∀ j, (0 < Z.of_nat d + depth (take j rest))%Z.
Proof.
  induction rest as [|c rest IH]; intros d Hd Hc j.
  { rewrite take_nil. simpl. lia. }
  destruct j as [|j]; [simpl; lia|].
  cbn [close_at take depth] in *.
  destruct (decide (c = lbrace)).
  - destruct (close_at (S d) rest) eqn:Hk'; [done|].
    specialize (IH (S d) ltac:(lia) Hk' j). lia.
  - destruct (decide (c = rbrace)).
    + destruct d as [|[|d]]; [lia|done|].
      destruct (close_at (S d) rest) eqn:Hk'; [done|].
      specialize (IH (S d) ltac:(lia) Hk' j). lia.
    + destruct (close_at d rest) eqn:Hk'; [done|].
      specialize (IH d ltac:(lia) Hk' j). lia.
Qed.

(** The closing position is determined by the depth profile. *)
Lemma close_at_unique rest d k :
  1 ≤ d → k ≤ length rest →
  (Z.of_nat d + depth (take k rest) = 0)%Z →
  (∀ j, j < k → (0 < Z.of_nat d + depth (take j rest))%Z) →
  close_at d rest = Some k.
Proof.
  intros Hd Hk Hz Hpos.
  destruct (close_at d rest) as [k'|] eqn:Hc.
  - destruct (close_at_Some _ _ _ Hd Hc) as (Hk' & Hz' & Hpos').
    destruct (decide (k' < k)); [specialize (Hpos k'); lia|].
    destruct (decide (k < k')); [specialize (Hpos' k); lia|].
    f_equal. lia.
  - pose proof (close_at_None _ _ Hd Hc k). lia.
Qed.

Lemma depth_lbrace l : depth (lbrace :: l) = (1 + depth l)%Z.
Proof. cbn [depth]. by rewrite decide_True. Qed.

Lemma extract_chars_Some text g :
  extract_chars text = Return (Some g) ↔ first_group text g.
Proof.
  split.
  - intros He. destruct (decide (lbrace ∈ text)) as [Hin|Hnin].
    2:{ by rewrite extract_chars_absent in He. }
    apply list_elem_of_split_l in Hin as (pre & rest & -> & Hpre).
    rewrite extract_chars_present in He by done.
    destruct (close_at 1 rest) as [k|] eqn:Hc; simplify_eq/=.
    destruct (close_at_Some _ _ _ (le_n 1) Hc) as ((_ & Hk) & Hz & Hpos).
    exists pre, (drop k rest). split_and!; [|done|].
    + simpl. by rewrite take_drop.
    + split_and!; [done|rewrite depth_lbrace; lia|].
      intros [|j] Hj; [lia|]. simpl length in Hj. rewrite length_take in Hj.
      cbn [take]. rewrite depth_lbrace, take_take.
      replace (j `min` k) with j by lia. specialize (Hpos j). lia.
  - intros (pre & post & -> & Hpre & Hhd & Hz & Hpos).
    destruct g as [|c g]; simplify_eq/=.
    rewrite extract_chars_present by done.
    rewrite (close_at_unique _ 1 (length g)); [| lia | | |].
    + simpl. by rewrite take_app_length.
    + rewrite length_app. lia.
    + rewrite take_app_length. rewrite <- depth_lbrace. simpl; lia.
    + intros j Hj. specialize (Hpos (S j) ltac:(lia)).
      cbn [take] in Hpos. rewrite depth_lbrace in Hpos.
      rewrite take_app_le by lia. lia.
Qed.

Lemma extract_chars_None text :
  extract_chars text = Return None ↔ lbrace ∉ text ∨ never_closes text.
Proof.
  split.
  - intros He. destruct (decide (lbrace ∈ text)) as [Hin|Hnin]; [right|by left].
    apply list_elem_of_split_l in Hin as (pre & rest & -> & Hpre).
    rewrite extract_chars_present in He by done.
    destruct (close_at 1 rest) as [k|] eqn:Hc; simplify_eq/=.
    exists pre, rest. split_and!; [done..|].
    intros [|j] Hj; [lia|]. cbn [take]. rewrite depth_lbrace.
    pose proof (close_at_None _ _ (le_n 1) Hc j). lia.
  - intros [Hnin|(pre & rest & -> & Hpre & Hpos)].
    + by apply extract_chars_absent.
    + rewrite extract_chars_present by done.
      destruct (close_at 1 rest) as [k|] eqn:Hc; [|done]. exfalso.
      destruct (close_at_Some _ _ _ (le_n 1) Hc) as (Hk & Hz & _).
      specialize (Hpos (S k) ltac:(lia)).
      cbn [take] in Hpos. rewrite depth_lbrace in Hpos. lia.
Qed.

Lemma extract_chars_total text : ∃ r, extract_chars text = Return r.
Proof.
  destruct (decide (lbrace ∈ text)) as [Hin|Hnin].
  - apply list_elem_of_split_l in Hin as (pre & rest & -> & Hpre).
    rewrite extract_chars_present by done. eauto.
  - rewrite extract_chars_absent by done. eauto.
Qed.
End extract_facts.

(** C1: for every input string, [extract_json] returns a string exactly
    when that string is the first top-level balanced brace group of the
    input (it starts at the first opening brace and ends at the closing
    brace that first brings the nesting depth back to zero, surrounded by
    arbitrary text), and returns [None] exactly when the input has no
    opening brace or the depth never returns to zero. *)
Theorem extract_json_first_group (text : string) :
  (∀ s : string,
     extract_json text = Return (Some s) ↔
     first_group (list_ascii_of_string text) (list_ascii_of_string s)) ∧
  (extract_json text = Return None ↔
     lbrace ∉ list_ascii_of_string text ∨
     never_closes (list_ascii_of_string text)).
Proof.
  unfold extract_json. split.
  - intros s. rewrite <- extract_chars_Some.
    destruct (extract_chars (list_ascii_of_string text)) as [[g|]|e]; simpl.
    + split; intros H; simplify_eq.
      * by rewrite list_ascii_of_string_of_list_ascii.
      * by rewrite string_of_list_ascii_of_string.
    + split; intros H; simplify_eq.
    + split; intros H; simplify_eq.
  - rewrite <- extract_chars_None.
    destruct (extract_chars (list_ascii_of_string text)) as [[g|]|e]; simpl;
      split; intros H; by simplify_eq.
Qed.

(** The example of the specification: text around a nested object. *)
Example extract_json_nested :
  extract_json ("noise{" +:+ dq +:+ "a" +:+ dq +:+ ":{" +:+ dq +:+ "b" +:+ dq +:+
                ":1}}tail")
  = Return (Some ("{" +:+ dq +:+ "a" +:+ dq +:+ ":{" +:+ dq +:+ "b" +:+ dq +:+ ":1}}")).
Proof. vm_compute. reflexivity. Qed.

Example extract_json_no_brace : extract_json "hello world" = Return None.
Proof. vm_compute. reflexivity. Qed.

Example extract_json_unbalanced : extract_json "a{b{c}" = Return None.
Proof. vm_compute. reflexivity. Qed.

(** C10: [extract_json] is total and never raises: no closing brace is
    ever processed with an empty stack, so the pop never fails. *)
Theorem extract_json_never_raises (text : string) :
  ∃ r : option string, extract_json text = Return r.
Proof.
  unfold extract_json.
  destruct (extract_chars_total (list_ascii_of_string text)) as [r ->].
  eauto.
Qed.

(** ** Dictionaries *)

Section dict_facts.
Implicit Types (k : string) (v : pyval) (d reg ms : list (string * pyval)).

Lemma str_eqb_true (a b : string) : str_eqb a b = true ↔ a = b.
Proof. unfold str_eqb. by rewrite bool_decide_eq_true. Qed.

Lemma str_eqb_refl (a : string) : str_eqb a a = true.
Proof. by apply str_eqb_true. Qed.

Lemma str_eqb_ne (a b : string) : a ≠ b → str_eqb a b = false.
Proof. unfold str_eqb. by rewrite bool_decide_eq_false. Qed.

Lemma sget_sset_eq k v d : sget k (sset k v d) = Some v.
Proof.
  unfold sget, sset. induction d as [|[k' v'] d IH]; csimpl.
  - by rewrite str_eqb_refl.
  - destruct (str_eqb k' k) eqn:Hk; csimpl; by rewrite Hk.
Qed.

Lemma sget_sset_ne k k' v d : k ≠ k' → sget k' (sset k v d) = sget k' d.
Proof.
  intros Hne. unfold sget, sset. induction d as [|[k0 v0] d IH]; csimpl.
  - by rewrite str_eqb_ne.
  - destruct (str_eqb k0 k) eqn:Hk; csimpl; [|by rewrite IH].
    apply str_eqb_true in Hk as ->. by rewrite str_eqb_ne.
Qed.

Lemma sget_None k d : sget k d = None ↔ k ∉ keys d.
Proof.
  unfold sget, keys. induction d as [|[k0 v0] d IH]; csimpl.
  - split; [intros _; apply not_elem_of_nil|done].
  - rewrite not_elem_of_cons. destruct (str_eqb k0 k) eqn:Hk.
    + apply str_eqb_true in Hk as ->. split; [done|by intros [? _]].
    + rewrite IH. split; [|by intros [_ ?]].
      intros ?; split; [|done]. intros ->. by rewrite str_eqb_refl in Hk.
Qed.

Lemma sset_absent k v d : k ∉ keys d → sset k v d = d ++ [(k, v)].
Proof.
  unfold sset, keys. induction d as [|[k0 v0] d IH]; csimpl; [done|].
  rewrite not_elem_of_cons. intros [Hne Hnin].
  rewrite str_eqb_ne by done. by rewrite IH.
Qed.

Lemma keys_sset_present k v d : k ∈ keys d → keys (sset k v d) = keys d.
Proof.
  unfold sset, keys. induction d as [|[k0 v0] d IH]; csimpl.
  - by intros ?%elem_of_nil.
  - destruct (str_eqb k0 k) eqn:Hk; csimpl; [done|].
    intros [->|Hin]%elem_of_cons; [by rewrite str_eqb_refl in Hk|].
    by rewrite IH.
Qed.


Lemma NoDup_keys_sset k v d : NoDup (keys d) → NoDup (keys (sset k v d)).
Proof.
  intros Hnd. destruct (decide (k ∈ keys d)) as [Hin|Hnin].
  - by rewrite keys_sset_present.
  - rewrite sset_absent by done. unfold keys in *.
    rewrite fmap_app. apply NoDup_app. split_and!; [done| |apply NoDup_singleton].
    csimpl. intros x Hx ->%list_elem_of_singleton. done.
Qed.

Lemma NoDup_keys_foldl_set (ms acc : list (string * pyval)) :
  NoDup (keys acc) →
  NoDup (keys (foldl (λ a kv, dict_set str_eqb kv.1 kv.2 a) acc ms)).
Proof.
  revert acc. induction ms as [|[k v] ms IH]; intros acc Hacc; csimpl; [done|].
  apply IH. by apply NoDup_keys_sset.
Qed.

(** A dictionary never holds a key twice. *)
Lemma NoDup_keys_dict_of_members ms :
  NoDup (keys (dict_of_members str_eqb ms)).
Proof. apply NoDup_keys_foldl_set. constructor. Qed.

Lemma foldl_set_fresh (ms acc : list (string * pyval)) :
  NoDup (keys (acc ++ ms)) →
  foldl (λ a kv, dict_set str_eqb kv.1 kv.2 a) acc ms = acc ++ ms.
Proof.
  revert acc. induction ms as [|[k v] ms IH]; intros acc Hnd; csimpl.
  - by rewrite app_nil_r.
  - assert (k ∉ keys acc).
    { unfold keys in *. rewrite fmap_app in Hnd. apply NoDup_app in Hnd as (_ & Hd & _).
      intros Hin. apply (Hd _ Hin). csimpl. left. }
    change (dict_set str_eqb k v acc) with (sset k v acc).
    rewrite sset_absent by done. rewrite IH; [by rewrite <- app_assoc|].
    by rewrite <- app_assoc.
Qed.

(** Reading back a document written from a dictionary gives that
    dictionary. *)
Lemma dict_of_members_NoDup ms :
  NoDup (keys ms) → dict_of_members str_eqb ms = ms.
Proof. intros Hnd. unfold dict_of_members. by rewrite foldl_set_fresh. Qed.

Lemma in_memory_set k v reg :
  dict_set key_eqb (PStr k) v (in_memory reg) = in_memory (sset k v reg).
Proof.
  unfold in_memory, sset. induction reg as [|[k0 v0] reg IH]; csimpl; [done|].
  destruct (str_eqb k0 k); csimpl; [done|]. by rewrite IH.
Qed.

Lemma in_memory_get k reg :
  dict_get key_eqb (PStr k) (in_memory reg) = sget k reg.
Proof.
  unfold in_memory, sget. induction reg as [|[k0 v0] reg IH]; csimpl; [done|].
  by destruct (str_eqb k0 k).
Qed.

Lemma in_memory_foldl ms acc :
  foldl (λ a kv, dict_set key_eqb kv.1 kv.2 a) (in_memory acc) (prod_map PStr id <$> ms)
  = in_memory (foldl (λ a kv, dict_set str_eqb kv.1 kv.2 a) acc ms).
Proof.
  revert acc. induction ms as [|[k v] ms IH]; intros acc; csimpl; [done|].
  rewrite in_memory_set. apply IH.
Qed.

Lemma in_memory_of_members ms :
  dict_of_members key_eqb (prod_map PStr id <$> ms)
  = in_memory (dict_of_members str_eqb ms).
Proof. apply (in_memory_foldl ms []). Qed.

Lemma json_members_in_memory reg : json_members (in_memory reg) = Return reg.
Proof.
  unfold in_memory. induction reg as [|[k v] reg IH]; csimpl; [done|].
  by rewrite IH.
Qed.

Lemma registry_of_NoDup f reg : registry_of f = Some reg → NoDup (keys reg).
Proof.
  destruct f as [| | |[]]; intros; simplify_eq/=; [constructor|].
  apply NoDup_keys_dict_of_members.
Qed.
End dict_facts.

(** ** The registry document *)

Section registry_facts.
Implicit Types (w : World) (reg : list (string * pyval)).

Lemma load_tools_ok w reg :
  registry_of (tools_file w) = Some reg →
  load_tools w =
    (Return (TDict (in_memory reg)),
     mk_world (ensure_file (tools_file w)) (registered_functions w)
       (uuid_draws w) (llm_calls w) (trace w ++ [EvLoadTools])).
Proof.
  intros Hreg. destruct w as [f rf u l t]; simpl in *.
  unfold load_tools, get_tools_path. unfold_monad.
  destruct f as [| | |[]]; simplify_eq/=; try done.
  by rewrite in_memory_of_members.
Qed.

Lemma save_tools_ok w reg :
  save_tools (TDict (in_memory reg)) w =
    (Return (),
     mk_world (Json (PDict reg)) (registered_functions w)
       (uuid_draws w) (llm_calls w) (trace w ++ [EvSaveTools])).
Proof.
  destruct w as [f rf u l t].
  unfold save_tools, get_tools_path, json_dump. unfold_monad.
  rewrite json_members_in_memory. by destruct f.
Qed.

Lemma function_tool_ok E func w reg :
  registry_of (tools_file w) = Some reg →
  function_tool E func w = (Return func, statically_registered E func reg w).
Proof.
  intros Hreg. unfold function_tool, ToolManager_register_function, uuid4, logging_info.
  rewrite str_eqb_refl. unfold_monad. simpl.
  erewrite load_tools_ok; [|done]. simpl.
  rewrite in_memory_set, save_tools_ok. simpl.
  unfold statically_registered, registered_msg. do 2 f_equal.
  by rewrite <- !app_assoc.
Qed.

Lemma registry_of_statically_registered E func reg w :
  NoDup (keys reg) →
  registry_of (tools_file (statically_registered E func reg w))
  = Some (sset (fn_name func)
            (metadata func "__runtime__" (uuid4_str E (uuid_draws w))) reg).
Proof.
  intros Hnd. simpl. f_equal. apply dict_of_members_NoDup.
  by apply NoDup_keys_sset.
Qed.
End registry_facts.

(** ** Static registration *)

Lemma arguments_of_NoDup (params : list Param) :
  NoDup (param_name <$> params) →
  arguments_of params
  = (λ p, (param_name p, annotation_str (param_annotation p))) <$> params.
Proof.
  intros Hnd. unfold arguments_of. apply dict_of_members_NoDup.
  unfold keys. by rewrite <- list_fmap_compose.
Qed.

Lemma metadata_runtime_record (f : Func) (call_id : string) :
  NoDup (param_name <$> fn_params f) →
  metadata f "__runtime__" call_id = runtime_record f call_id.
Proof.
  intros Hnd. unfold metadata, runtime_record.
  rewrite arguments_of_NoDup by done.
  assert (Hann : ∀ a, annotation_str a = PStr (default "Any" a)) by (by intros []).
  assert (Hdoc : docstring_of (fn_doc f) = strip (default EmptyString (fn_doc f)))
    by (by destruct (fn_doc f) as [[|]|]).
  rewrite Hann, Hdoc. do 5 f_equal.
  apply list_fmap_ext. intros _ p _. by rewrite Hann.
Qed.

(** C6: after [function_tool func], loading the registry gives a
    dictionary whose entry under the function's name has exactly the
    declared parameter names as the keys of [arguments], each mapped to
    the string of its annotation, or to "Any" when it has none, the
    return annotation treated the same way, the documentation string
    without the whitespace around it (the empty string when there is
    none), module path [__runtime__], [is_runtime] true, and an
    identifier built from a draw of [uuid4] that no earlier draw
    produced. *)
Theorem function_tool_record (E : Env) (func : Func) (w : World)
    (reg : list (string * pyval)) :
  registry_of (tools_file w) = Some reg →
  NoDup (param_name <$> fn_params func) →
  Inj (=) (=) (uuid4_str E) →
  ∃ w' tools,
    function_tool E func w = (Return func, w') ∧
    (load_tools w').1 = Return (TDict tools) ∧
    dict_get key_eqb (PStr (fn_name func)) tools =
      Some (PDict
        [("tool_name", PStr (fn_name func));
         ("arguments",
          PDict ((λ p, (param_name p, PStr (default "Any" (param_annotation p))))
                 <$> fn_params func));
         ("return", PStr (default "Any" (fn_return func)));
         ("docstring", PStr (strip (default EmptyString (fn_doc func))));
         ("module_path", PStr "__runtime__");
         ("tool_call_id", PStr ("tool_" +:+ uuid4_str E (uuid_draws w)));
         ("is_runtime", PBool true)]) ∧
    uuid_draws w' = S (uuid_draws w) ∧
    ∀ n, n < uuid_draws w → uuid4_str E n ≠ uuid4_str E (uuid_draws w).
Proof.
  intros Hreg Hnd Hinj.
  pose proof (registry_of_NoDup _ _ Hreg) as Hregnd.
  eexists _, _. split_and!.
  - by apply function_tool_ok.
  - erewrite load_tools_ok; [done|].
    by apply registry_of_statically_registered.
  - rewrite in_memory_get, sget_sset_eq.
    by rewrite metadata_runtime_record.
  - done.
  - intros n Hn Heq. apply Hinj in Heq. lia.
Qed.

Lemma function_tool_record_witness :
  registry_of (tools_file initial_world) = Some [] ∧
  NoDup (param_name <$> fn_params scale_func) ∧
  Inj (=) (=) (uuid4_str (demo_env "{}")) ∧
  ∃ w' tools,
    function_tool (demo_env "{}") scale_func initial_world = (Return scale_func, w') ∧
    (load_tools w').1 = Return (TDict tools) ∧
    dict_get key_eqb (PStr "scale") tools =
      Some (PDict
        [("tool_name", PStr "scale");
         ("arguments",
          PDict [("value", PStr "<class 'float'>"); ("factor", PStr "Any")]);
         ("return", PStr "Any");
         ("docstring", PStr "Scale a value.");
         ("module_path", PStr "__runtime__");
         ("tool_call_id", PStr "tool_0");
         ("is_runtime", PBool true)]) ∧
    uuid_draws w' = 1 ∧
    ∀ n, n < 0 → uuid4_str (demo_env "{}") n ≠ uuid4_str (demo_env "{}") 0.
Proof.
  assert (H1 : registry_of (tools_file initial_world) = Some []) by reflexivity.
  assert (H2 : NoDup (param_name <$> fn_params scale_func)).
  { apply (bool_decide_unpack _). vm_compute. exact I. }
  assert (H3 : Inj (=) (=) (uuid4_str (demo_env "{}"))).
  { simpl. apply pretty_nat_inj. }
  split_and!; [exact H1|exact H2|exact H3|].
  exact (function_tool_record (demo_env "{}") scale_func initial_world [] H1 H2 H3).
Defined.

Section register_all_facts.
Context (E : Env).
Implicit Types (funcs : list Func) (reg : list (string * pyval)) (w : World).

Lemma register_records_NoDup funcs : ∀ n reg,
  NoDup (keys reg) → NoDup (keys (register_records E n funcs reg)).
Proof.
  induction funcs as [|f funcs IH]; intros n reg Hnd; simpl; [done|].
  apply IH. by apply NoDup_keys_sset.
Qed.

Lemma register_records_other funcs k : ∀ n reg,
  (∀ g, g ∈ funcs → fn_name g ≠ k) →
  sget k (register_records E n funcs reg) = sget k reg.
Proof.
  induction funcs as [|f funcs IH]; intros n reg Hk; simpl; [done|].
  rewrite IH by (intros g Hg; apply Hk; by right).
  apply sget_sset_ne, Hk. left.
Qed.

Lemma register_records_last funcs : ∀ n reg i f,
  funcs !! i = Some f →
  (∀ j g, i < j → funcs !! j = Some g → fn_name g ≠ fn_name f) →
  sget (fn_name f) (register_records E n funcs reg)
  = Some (metadata f "__runtime__" (uuid4_str E (n + i))).
Proof.
  induction funcs as [|f0 funcs IH]; intros n reg i f Hi Hlast; [done|].
  destruct i as [|i]; simplify_eq/=.
  - rewrite register_records_other.
    + rewrite sget_sset_eq. do 3 f_equal. lia.
    + intros g [j Hj]%list_elem_of_lookup. apply (Hlast (S j)); [lia|done].
  - replace (n + S i) with (S n + i) by lia. apply IH; [done|].
    intros j g Hj Hg. apply (Hlast (S j)); [lia|done].
Qed.

Lemma register_all_ok funcs : ∀ w reg,
  registry_of (tools_file w) = Some reg →
  ∃ w', register_all E funcs w = (Return (), w') ∧
    registry_of (tools_file w') = Some (register_records E (uuid_draws w) funcs reg) ∧
    (funcs ≠ [] →
     tools_file w' = Json (PDict (register_records E (uuid_draws w) funcs reg))) ∧
    uuid_draws w' = uuid_draws w + length funcs.
Proof.
  unfold register_all.
  induction funcs as [|f funcs IH]; intros w reg Hreg.
  - exists w. split_and!; [done..|simpl; lia].
  - pose proof (registry_of_NoDup _ _ Hreg) as Hnd.
    cbn [for_each]. unfold_monad. rewrite (function_tool_ok E f w reg Hreg).
    cbn beta iota.
    destruct (IH (statically_registered E f reg w) _
                (registry_of_statically_registered E f reg w Hnd))
      as (w' & Hrun & Hfinal & Hdoc & Hdraws).
    exists w'. split_and!; [done|done| |simpl in *; lia].
    intros _. destruct funcs as [|g funcs]; [|by apply Hdoc].
    cbn [for_each] in Hrun. unfold_monad. by simplify_eq/=.
Qed.
End register_all_facts.

(** C7: whatever functions are registered one after the other, every
    registration leaves under its name exactly the record of the
    function just registered, whatever the name held before, with an
    identifier of its own that no other registration of the sequence
    stores; the document never holds a key twice; and in the end each
    registered name holds the record of its last registration. *)
Theorem reregistration_overwrites (E : Env) (funcs : list Func) (w : World)
    (reg : list (string * pyval)) :
  registry_of (tools_file w) = Some reg →
  Forall (λ f, NoDup (param_name <$> fn_params f)) funcs →
  Inj (=) (=) (uuid4_str E) →
  funcs ≠ [] →
  ∃ w' members,
    register_all E funcs w = (Return (), w') ∧
    tools_file w' = Json (PDict members) ∧
    NoDup (keys members) ∧
    (∀ i f,
       funcs !! i = Some f →
       ∃ wi stage,
         register_all E (take (S i) funcs) w = (Return (), wi) ∧
         tools_file wi = Json (PDict stage) ∧
         NoDup (keys stage) ∧
         sget (fn_name f) stage
         = Some (runtime_record f (uuid4_str E (uuid_draws w + i)))) ∧
    (∀ i f,
       funcs !! i = Some f →
       (∀ j g, i < j → funcs !! j = Some g → fn_name g ≠ fn_name f) →
       sget (fn_name f) members
       = Some (runtime_record f (uuid4_str E (uuid_draws w + i)))) ∧
    (∀ i j f g,
       i < j → funcs !! i = Some f → funcs !! j = Some g →
       getitem (runtime_record g (uuid4_str E (uuid_draws w + j))) "tool_call_id"
       ≠ getitem (runtime_record f (uuid4_str E (uuid_draws w + i))) "tool_call_id") ∧
    (∀ k, (∀ g, g ∈ funcs → fn_name g ≠ k) → sget k members = sget k reg).
Proof.
  intros Hreg Hparams Hinj Hne.
  assert (Hp : ∀ i f, funcs !! i = Some f → NoDup (param_name <$> fn_params f)).
  { intros i f Hi. rewrite Forall_lookup in Hparams. by apply (Hparams i f). }
  destruct (register_all_ok E funcs w reg Hreg) as (w' & Hrun & _ & Hdoc & _).
  exists w', (register_records E (uuid_draws w) funcs reg). split_and!.
  - done.
  - by apply Hdoc.
  - apply register_records_NoDup. by eapply registry_of_NoDup.
  - intros i f Hi.
    assert (Hi' : take (S i) funcs !! i = Some f)
      by (rewrite lookup_take_lt by lia; done).
    destruct (register_all_ok E (take (S i) funcs) w reg Hreg)
      as (wi & Hruni & _ & Hdoci & _).
    exists wi, (register_records E (uuid_draws w) (take (S i) funcs) reg).
    split_and!.
    + done.
    + apply Hdoci. intros Hnil. by rewrite Hnil in Hi'.
    + apply register_records_NoDup. by eapply registry_of_NoDup.
    + rewrite <- metadata_runtime_record by exact (Hp i f Hi).
      apply register_records_last; [done|].
      intros j g Hj Hg. apply lookup_lt_Some in Hg.
      rewrite length_take in Hg. lia.
  - intros i f Hi Hlast.
    rewrite <- metadata_runtime_record by exact (Hp i f Hi).
    by apply register_records_last.
  - intros i j f g Hij _ _. simpl. intros Heq.
    injection Heq as Heq. apply Hinj in Heq. lia.
  - intros k Hk. by apply register_records_other.
Qed.

Lemma reregistration_overwrites_witness :
  registry_of (tools_file initial_world) = Some [] ∧
  Forall (λ f, NoDup (param_name <$> fn_params f)) [add_func; add_func2] ∧
  Inj (=) (=) (uuid4_str (demo_env "{}")) ∧
  [add_func; add_func2] ≠ [] ∧
  (∃ w1 stage,
     register_all (demo_env "{}") [add_func] initial_world = (Return (), w1) ∧
     tools_file w1 = Json (PDict stage) ∧
     sget "add" stage =
       Some (PDict
         [("tool_name", PStr "add");
          ("arguments",
           PDict [("x", PStr "<class 'int'>"); ("y", PStr "<class 'int'>")]);
          ("return", PStr "<class 'int'>");
          ("docstring", PStr "Add two numbers.");
          ("module_path", PStr "__runtime__");
          ("tool_call_id", PStr "tool_0");
          ("is_runtime", PBool true)])) ∧
  ∃ w' members,
    register_all (demo_env "{}") [add_func; add_func2] initial_world = (Return (), w') ∧
    tools_file w' = Json (PDict members) ∧
    NoDup (keys members) ∧
    sget "add" members =
      Some (PDict
        [("tool_name", PStr "add");
         ("arguments", PDict [("a", PStr "Any")]);
         ("return", PStr "Any");
         ("docstring", PStr EmptyString);
         ("module_path", PStr "__runtime__");
         ("tool_call_id", PStr "tool_1");
         ("is_runtime", PBool true)]).
Proof.
  assert (H1 : registry_of (tools_file initial_world) = Some []) by reflexivity.
  assert (H0 : Forall (λ f, NoDup (param_name <$> fn_params f)) [add_func; add_func2]).
  { repeat constructor; apply (bool_decide_unpack _); vm_compute; exact I. }
  assert (H2 : Inj (=) (=) (uuid4_str (demo_env "{}"))).
  { simpl. apply pretty_nat_inj. }
  assert (H3 : [add_func; add_func2] ≠ []) by discriminate.
  split_and!; [exact H1|exact H0|exact H2|exact H3| |].
  - destruct (reregistration_overwrites (demo_env "{}") [add_func; add_func2]
                initial_world [] H1 H0 H2 H3)
      as (_ & _ & _ & _ & _ & Hstage & _).
    destruct (Hstage 0 add_func eq_refl) as (w1 & stage & Hrun & Hdoc & _ & Hget).
    exists w1, stage. split_and!; [exact Hrun|exact Hdoc|exact Hget].
  - destruct (reregistration_overwrites (demo_env "{}") [add_func; add_func2]
                initial_world [] H1 H0 H2 H3)
      as (w' & members & Hrun & Hdoc & Hnd & _ & Hlast & _).
    exists w', members. split_and!; [exact Hrun|exact Hdoc|exact Hnd|].
    apply (Hlast 1 add_func2); [reflexivity|].
    intros j g Hj Hg. destruct j as [|[|j]]; [lia|lia|discriminate].
Defined.

(** ** The dispatcher *)

Section strings.
Lemma prefix_app (sub s : string) :
  String.prefix sub s = true ↔ ∃ post, s = sub +:+ post.
Proof.
  revert s. induction sub as [|a sub IH]; intros s.
  - split; [by exists s|]. intros _. by destruct s.
  - destruct s as [|b s]; simpl.
    + split; [done|by intros [? ?]].
    + destruct (ascii_dec a b) as [->|Hne].
      * rewrite IH. split; intros [post Hp]; exists post.
        -- by subst s.
        -- change (String b s = String b (sub +:+ post)) in Hp. by simplify_eq.
      * split; [done|]. intros [post Hp].
        change (String b s = String a (sub +:+ post)) in Hp. by simplify_eq.
Qed.

Lemma contains_nil (sub : string) :
  contains sub EmptyString = String.prefix sub EmptyString || false.
Proof. done. Qed.

Lemma contains_cons (sub : string) c s :
  contains sub (String c s) = String.prefix sub (String c s) || contains sub s.
Proof. done. Qed.

(** [contains] is the substring test. *)
Lemma contains_spec (sub s : string) :
  contains sub s = true ↔ ∃ pre post, s = pre +:+ sub +:+ post.
Proof.
  split.
  - induction s as [|c s IH].
    + rewrite contains_nil, orb_true_iff.
      intros [Hp|?]; [|done]. apply prefix_app in Hp as [post Hp].
      by exists EmptyString, post.
    + rewrite contains_cons, orb_true_iff. intros [Hp|Hc].
      * apply prefix_app in Hp as [post Hp]. by exists EmptyString, post.
      * destruct (IH Hc) as (pre & post & ->). by exists (String c pre), post.
  - intros (pre & post & ->). induction pre as [|c pre IH].
    + assert (String.prefix sub (sub +:+ post) = true) as Hp
        by (apply prefix_app; eauto).
      change (EmptyString +:+ sub +:+ post) with (sub +:+ post).
      destruct (sub +:+ post).
      * by rewrite contains_nil, Hp.
      * by rewrite contains_cons, Hp.
    + change (String c pre +:+ sub +:+ post) with (String c (pre +:+ sub +:+ post)).
      rewrite contains_cons, IH. by rewrite orb_true_r.
Qed.
End strings.

Section dispatch_facts.
Context (E : Env).
Implicit Types (w : World) (task data : string).

Lemma llm_invoke_eq prompt w :
  llm_invoke E prompt w = (llm_content E (llm_calls w) prompt, asked prompt w).
Proof. done. Qed.

Lemma logging_error_eq msg w :
  logging_error msg w = (Return (), logged "ERROR" msg w).
Proof. done. Qed.

(** [tool_calling] is its selection phase followed by the fallback or
    the guarded dispatch. *)
Lemma tool_calling_unfold task w :
  tool_calling E task w =
  match select E task w with
  | (Return tool_data, w1) =>
      if falsy tool_data || contains "None" (default EmptyString tool_data) then
        match llm_content E (llm_calls w1) task with
        | Return content => (Return (PStr content), asked task w1)
        | Raise e => (Raise e, asked task w1)
        end
      else
        match dispatch E (default EmptyString tool_data) w1 with
        | (Return r, w2) => (Return r, w2)
        | (Raise e, w2) =>
            if dispatch_caught e then
              (Return PNone, logged "ERROR" ("Tool execution failed: " +:+ exn_msg e) w2)
            else (Raise e, w2)
        end
  | (Raise e, w1) => (Raise e, w1)
  end.
Proof.
  unfold tool_calling, select. unfold_monad.
  destruct (load_tools w) as [[tools|e] w0]; [|done].
  rewrite llm_invoke_eq.
  destruct (llm_content E (llm_calls w0) _) as [response|e]; [|done].
  destruct (extract_json response) as [tool_data|e]; [|done].
  destruct (falsy tool_data || contains "None" (default EmptyString tool_data)).
  - rewrite llm_invoke_eq. by destruct (llm_content E _ task).
  - unfold try_except. unfold_monad.
    destruct (dispatch E _ _) as [[r|e] w2]; [done|].
    unfold dispatch_caught. by destruct (existsb _ _).
Qed.

(** The selection phase on a readable registry. *)
Lemma select_response task w tools w0 response :
  load_tools w = (Return tools, w0) →
  llm_content E (llm_calls w0) (selection_prompt task (json_dumps E tools))
  = Return response →
  select E task w =
    (extract_json response,
     asked (selection_prompt task (json_dumps E tools)) w0).
Proof.
  intros Hload Hllm. unfold select. unfold_monad.
  rewrite Hload, llm_invoke_eq, Hllm. by destruct (extract_json response).
Qed.

Lemma tool_calling_fallback task w w1 tool_data :
  select E task w = (Return tool_data, w1) →
  falsy tool_data || contains "None" (default EmptyString tool_data) = true →
  tool_calling E task w =
    match llm_content E (llm_calls w1) task with
    | Return content => (Return (PStr content), asked task w1)
    | Raise e => (Raise e, asked task w1)
    end.
Proof. intros Hsel Hfb. by rewrite tool_calling_unfold, Hsel, Hfb. Qed.

(** The answer [none found: None] holds no brace: the fallback runs. *)
Lemma none_found_takes_fallback task w tools w0 :
  load_tools w = (Return tools, w0) →
  llm_content E (llm_calls w0) (selection_prompt task (json_dumps E tools))
  = Return "none found: None" →
  tool_calling E task w =
    match llm_content E (S (llm_calls w0)) task with
    | Return content =>
        (Return (PStr content),
         asked task (asked (selection_prompt task (json_dumps E tools)) w0))
    | Raise e =>
        (Raise e, asked task (asked (selection_prompt task (json_dumps E tools)) w0))
    end.
Proof.
  intros Hload Hllm.
  assert (Hsel : select E task w =
            (Return None, asked (selection_prompt task (json_dumps E tools)) w0)).
  { erewrite select_response by done. f_equal. }
  by rewrite (tool_calling_fallback task w _ None Hsel).
Qed.
End dispatch_facts.

(** C5: when the extractor finds nothing in the selection answer, or
    the extracted text contains [None], [tool_calling] asks the LLM the
    task itself and returns the content of that second answer: a
    string, not [None], and no exception.  The selection answer
    [none found: None] is such a case: the extractor finds nothing in
    it. *)
Theorem tool_calling_no_tool_fallback (E : Env) (task : string) (w w1 : World)
    (tool_data : option string) (content : string) :
  select E task w = (Return tool_data, w1) →
  (tool_data = None ∨
   ∃ d pre post, tool_data = Some d ∧ d = pre +:+ "None" +:+ post) →
  llm_content E (llm_calls w1) task = Return content →
  tool_calling E task w = (Return (PStr content), asked task w1) ∧
  (tool_calling E task w).1 ≠ Return PNone ∧
  (∀ tools w0,
     load_tools w = (Return tools, w0) →
     llm_content E (llm_calls w0) (selection_prompt task (json_dumps E tools))
     = Return "none found: None" →
     tool_data = None).
Proof.
  intros Hsel Hnone Hllm.
  assert (tool_calling E task w = (Return (PStr content), asked task w1)) as ->.
  { rewrite (tool_calling_fallback E task w w1 tool_data Hsel), Hllm; [done|].
    destruct Hnone as [->|(d & pre & post & -> & Hd)]; [done|].
    apply orb_true_iff. right. apply contains_spec. eauto. }
  split_and!; [done|simpl; discriminate|].
  intros tools w0 Hload Hanswer.
  rewrite (select_response E task w tools w0 _ Hload Hanswer) in Hsel.
  injection Hsel as Hx _. vm_compute in Hx. by simplify_eq.
Qed.

Lemma tool_calling_no_tool_fallback_witness :
  select (demo_env "none found: None") "What is 6 times 7?" initial_world
  = (Return None, fallback_world) ∧
  llm_content (demo_env "none found: None") (llm_calls fallback_world)
    "What is 6 times 7?" = Return "42" ∧
  tool_calling (demo_env "none found: None") "What is 6 times 7?" initial_world
  = (Return (PStr "42"), asked "What is 6 times 7?" fallback_world) ∧
  (tool_calling (demo_env "none found: None") "What is 6 times 7?" initial_world).1
  ≠ Return PNone.
Proof.
  assert (H1 : select (demo_env "none found: None") "What is 6 times 7?" initial_world
               = (Return None, fallback_world))
    by (vm_compute; reflexivity).
  assert (H3 : llm_content (demo_env "none found: None") (llm_calls fallback_world)
                 "What is 6 times 7?" = Return "42")
    by reflexivity.
  split; [exact H1|]. split; [exact H3|].
  destruct (tool_calling_no_tool_fallback (demo_env "none found: None")
              "What is 6 times 7?" initial_world fallback_world
              None "42" H1 (or_introl eq_refl) H3) as (Hrun & Hne & _).
  split; [exact Hrun|exact Hne].
Defined.

Section resolution_facts.
Context (E : Env).
Implicit Types (w : World) (task data name : string).

Lemma import_module_eq path w :
  import_module E (PStr path) w = find_module E path (importing path w).
Proof. done. Qed.

(** A parsed selection is dispatched to the object it resolves to. *)
Lemma dispatch_resolved data name kwargs module_path w f w' :
  parses_to E data name kwargs module_path →
  resolves E name module_path w f w' →
  dispatch E data w = call E f (PDict kwargs) w'.
Proof.
  intros (tool_call & Hload & Hname & Hargs & Hpath) Hres.
  unfold dispatch. unfold_monad. rewrite Hload, Hname, Hargs, Hpath. simpl.
  destruct Hres as [f Hg|path m w' f Hg -> Hfind Hattr]; rewrite Hg.
  - done.
  - rewrite import_module_eq, Hfind. simpl. by rewrite Hattr.
Qed.

(** A failing import ends the dispatch. *)
Lemma dispatch_import_fails data name kwargs path w e w' :
  parses_to E data name kwargs (PStr path) →
  dict_get str_eqb name (module_globals E) = None →
  find_module E path (importing path w) = (Raise e, w') →
  dispatch E data w = (Raise e, w').
Proof.
  intros (tool_call & Hload & Hname & Hargs & Hpath) Hg Hfind.
  unfold dispatch. unfold_monad. rewrite Hload, Hname, Hargs, Hpath. simpl.
  rewrite Hg. unfold importing in Hfind. unfold_monad. by rewrite Hfind.
Qed.

(** The extractor never returns the empty string. *)
Lemma select_nonempty task w data w1 :
  select E task w = (Return (Some data), w1) → falsy (Some data) = false.
Proof.
  unfold select. unfold_monad.
  destruct (load_tools w) as [[tools|e] w0]; [|done].
  rewrite llm_invoke_eq.
  destruct (llm_content E (llm_calls w0) _) as [response|e]; [|done].
  unfold extract_json.
  destruct (extract_chars (list_ascii_of_string response)) as [[g|]|e] eqn:Hx;
    intros; simplify_eq/=.
  apply extract_chars_Some in Hx as (pre & post & _ & _ & Hhd & _).
  by destruct g.
Qed.

(** The outcome of [tool_calling] once the selection resolves to a
    function: the outcome of the call, unless the call raises one of
    the exceptions the [except] clause names. *)
Lemma tool_calling_resolved task w data w1 name kwargs module_path f w2 :
  select E task w = (Return (Some data), w1) →
  contains "None" data = false →
  parses_to E data name kwargs module_path →
  resolves E name module_path w1 (OFunc f) w2 →
  tool_calling E task w =
    match call_func E f kwargs w2 with
    | (Return r, w3) => (Return r, w3)
    | (Raise e, w3) =>
        if dispatch_caught e then
          (Return PNone, logged "ERROR" ("Tool execution failed: " +:+ exn_msg e) w3)
        else (Raise e, w3)
    end.
Proof.
  intros Hsel Hnone Hparse Hres.
  rewrite tool_calling_unfold, Hsel.
  rewrite (select_nonempty _ _ _ _ Hsel). simpl default. rewrite Hnone. simpl orb.
  by rewrite (dispatch_resolved _ _ _ _ _ _ _ Hparse Hres).
Qed.
End resolution_facts.

(** C4, as the code has it: an exception raised by the body of the
    invoked tool reaches the caller of [tool_calling] unchanged unless
    it is an instance of [JSONDecodeError], [ImportError] or
    [AttributeError]; an exception of these classes is caught by the
    [except] clause that also guards the lookup, logged, and turned
    into [None]. *)
Theorem tool_body_exception_outcome (E : Env) (task data name : string)
    (w w1 w2 w3 : World) (kwargs : list (string * pyval)) (module_path : pyval)
    (f : Func) (e : exn) :
  select E task w = (Return (Some data), w1) →
  contains "None" data = false →
  parses_to E data name kwargs module_path →
  resolves E name module_path w1 (OFunc f) w2 →
  call_func E f kwargs w2 = (Raise e, w3) →
  (dispatch_caught e = false → tool_calling E task w = (Raise e, w3)) ∧
  (dispatch_caught e = true →
   tool_calling E task w =
     (Return PNone, logged "ERROR" ("Tool execution failed: " +:+ exn_msg e) w3)).
Proof.
  intros Hsel Hnone Hparse Hres Hcall.
  rewrite (tool_calling_resolved E task w data w1 name kwargs module_path f w2)
    by done.
  rewrite Hcall. by split; intros ->.
Qed.

Lemma tool_body_exception_outcome_witness :
  select div_env "divide" initial_world
  = (Return (Some (selection_text "div" "{}" "calc")),
     selected div_env "divide" initial_world) ∧
  contains "None" (selection_text "div" "{}" "calc") = false ∧
  parses_to div_env (selection_text "div" "{}" "calc") "div" [] (PStr "calc") ∧
  resolves div_env "div" (PStr "calc") (selected div_env "divide" initial_world)
    (OFunc div_func) (importing "calc" (selected div_env "divide" initial_world)) ∧
  call_func div_env div_func []
    (importing "calc" (selected div_env "divide" initial_world))
  = (Raise (ZeroDivisionError "division by zero"),
     importing "calc" (selected div_env "divide" initial_world)) ∧
  dispatch_caught (ZeroDivisionError "division by zero") = false ∧
  tool_calling div_env "divide" initial_world
  = (Raise (ZeroDivisionError "division by zero"),
     importing "calc" (selected div_env "divide" initial_world)).
Proof.
  assert (H1 : select div_env "divide" initial_world
               = (Return (Some (selection_text "div" "{}" "calc")),
                  selected div_env "divide" initial_world))
    by (vm_compute; reflexivity).
  assert (H2 : contains "None" (selection_text "div" "{}" "calc") = false)
    by (vm_compute; reflexivity).
  assert (H3 : parses_to div_env (selection_text "div" "{}" "calc") "div" []
                 (PStr "calc")).
  { exists (selection "div" [] (PStr "calc")).
    split_and!; vm_compute; reflexivity. }
  assert (H4 : resolves div_env "div" (PStr "calc")
                 (selected div_env "divide" initial_world) (OFunc div_func)
                 (importing "calc" (selected div_env "divide" initial_world))).
  { apply (resolves_import _ _ _ _ "calc" calc_module); reflexivity. }
  assert (H5 : call_func div_env div_func []
                 (importing "calc" (selected div_env "divide" initial_world))
               = (Raise (ZeroDivisionError "division by zero"),
                  importing "calc" (selected div_env "divide" initial_world)))
    by reflexivity.
  assert (H6 : dispatch_caught (ZeroDivisionError "division by zero") = false)
    by (vm_compute; reflexivity).
  split_and!; [exact H1|exact H2|exact H3|exact H4|exact H5|exact H6|].
  exact (proj1 (tool_body_exception_outcome div_env "divide" _ "div" initial_world
                  _ _ _ [] (PStr "calc") div_func _ H1 H2 H3 H4 H5) H6).
Defined.

(** C4, as stated, fails: the tool [boom] raises an [AttributeError]
    from its own body, and [tool_calling] returns [None]. *)
Lemma tool_body_exception_swallowed :
  call_func boom_env boom_func []
    (importing "calc" (selected boom_env "run boom" initial_world))
  = (Raise (AttributeError "'NoneType' object has no attribute 'name'"),
     importing "calc" (selected boom_env "run boom" initial_world)) ∧
  resolves boom_env "boom" (PStr "calc") (selected boom_env "run boom" initial_world)
    (OFunc boom_func) (importing "calc" (selected boom_env "run boom" initial_world)) ∧
  (tool_calling boom_env "run boom" initial_world).1 = Return PNone.
Proof.
  split_and!.
  - reflexivity.
  - apply (resolves_import _ _ _ _ "calc" calc_module); reflexivity.
  - vm_compute. reflexivity.
Qed.

(** ** Where the dispatcher departs from its description *)

Lemma dict_get_set_eq {V} (k : string) (v : V) (d : list (string * V)) :
  dict_get str_eqb k (dict_set str_eqb k v d) = Some v.
Proof.
  induction d as [|[k' v'] d IH]; simpl.
  - by rewrite str_eqb_refl.
  - destruct (str_eqb k' k) eqn:Hk; simpl; by rewrite Hk.
Qed.

(** C3 at the selection [{}]: the text parses as JSON, the key
    [tool_name] is missing, and the [KeyError] of the subscript is not
    among the exceptions the [except] clause names: it reaches the
    caller. *)
Theorem tool_calling_missing_key_raises (E : Env) (task data : string)
    (w w1 : World) (d : list (string * pyval)) :
  select E task w = (Return (Some data), w1) →
  contains "None" data = false →
  json_loads E data = Return (PDict d) →
  sget "tool_name" d = None →
  tool_calling E task w = (Raise (KeyError "'tool_name'"), w1).
Proof.
  intros Hsel Hnone Hload Hkey.
  rewrite tool_calling_unfold, Hsel.
  rewrite (select_nonempty _ _ _ _ _ Hsel). simpl default. rewrite Hnone. simpl orb.
  unfold dispatch. unfold_monad. rewrite Hload. simpl. by rewrite Hkey.
Qed.

Lemma tool_calling_missing_key_raises_witness :
  select (demo_env "{}") "add 2 and 3" initial_world
  = (Return (Some "{}"), selected (demo_env "{}") "add 2 and 3" initial_world) ∧
  contains "None" "{}" = false ∧
  json_loads (demo_env "{}") "{}" = Return (PDict []) ∧
  sget "tool_name" [] = None ∧
  tool_calling (demo_env "{}") "add 2 and 3" initial_world
  = (Raise (KeyError "'tool_name'"),
     selected (demo_env "{}") "add 2 and 3" initial_world).
Proof.
  assert (H1 : select (demo_env "{}") "add 2 and 3" initial_world
               = (Return (Some "{}"),
                  selected (demo_env "{}") "add 2 and 3" initial_world))
    by (vm_compute; reflexivity).
  assert (H2 : contains "None" "{}" = false) by reflexivity.
  assert (H3 : json_loads (demo_env "{}") "{}" = Return (PDict [])) by reflexivity.
  assert (H4 : sget "tool_name" [] = None) by reflexivity.
  split_and!; [exact H1|exact H2|exact H3|exact H4|].
  exact (tool_calling_missing_key_raises (demo_env "{}") "add 2 and 3" "{}"
           initial_world _ [] H1 H2 H3 H4).
Defined.

(** C2 at a statically registered tool: [function_tool] stores the
    function in [ToolManager._registered_functions], but [tool_calling]
    consults the namespace of [tool.py]; the function is not found
    there, the module [__runtime__] is imported instead, the import
    fails, and [None] is returned without the function being called. *)
Theorem static_tool_dispatch_imports (E : Env) (func : Func) (task data : string)
    (w w1 w2 : World) (reg kwargs : list (string * pyval)) (e : exn) :
  registry_of (tools_file w) = Some reg →
  dict_get str_eqb (fn_name func) (module_globals E) = None →
  select E task (statically_registered E func reg w) = (Return (Some data), w1) →
  contains "None" data = false →
  parses_to E data (fn_name func) kwargs (PStr "__runtime__") →
  find_module E "__runtime__" (importing "__runtime__" w1) = (Raise e, w2) →
  isinstance e "ImportError" = true →
  function_tool E func w = (Return func, statically_registered E func reg w) ∧
  dict_get str_eqb (fn_name func)
    (registered_functions (statically_registered E func reg w)) = Some func ∧
  tool_calling E task (statically_registered E func reg w) =
    (Return PNone, logged "ERROR" ("Tool execution failed: " +:+ exn_msg e) w2).
Proof.
  intros Hreg Hglobals Hsel Hnone Hparse Hfind Hcls.
  split_and!.
  - by apply function_tool_ok.
  - apply dict_get_set_eq.
  - rewrite tool_calling_unfold, Hsel.
    rewrite (select_nonempty _ _ _ _ _ Hsel). simpl default. rewrite Hnone. simpl orb.
    rewrite (dispatch_import_fails E data _ kwargs "__runtime__" w1 e w2) by done.
    unfold dispatch_caught. simpl existsb. rewrite Hcls.
    by rewrite orb_true_r.
Qed.

Lemma static_tool_dispatch_imports_witness :
  registry_of (tools_file initial_world) = Some [] ∧
  dict_get str_eqb (fn_name add_func) (module_globals add_env) = None ∧
  select add_env "add 2 and 3" (statically_registered add_env add_func [] initial_world)
  = (Return (Some (selection_text "add" add_arguments_text "__runtime__")),
     selected add_env "add 2 and 3"
       (statically_registered add_env add_func [] initial_world)) ∧
  contains "None" (selection_text "add" add_arguments_text "__runtime__") = false ∧
  parses_to add_env (selection_text "add" add_arguments_text "__runtime__")
    "add" [("x", PInt 2); ("y", PInt 3)] (PStr "__runtime__") ∧
  isinstance (ModuleNotFoundError "No module named '__runtime__'") "ImportError" = true ∧
  function_tool add_env add_func initial_world
  = (Return add_func, statically_registered add_env add_func [] initial_world) ∧
  dict_get str_eqb "add"
    (registered_functions (statically_registered add_env add_func [] initial_world))
  = Some add_func ∧
  tool_calling add_env "add 2 and 3"
    (statically_registered add_env add_func [] initial_world)
  = (Return PNone,
     logged "ERROR" "Tool execution failed: No module named '__runtime__'"
       (importing "__runtime__"
          (selected add_env "add 2 and 3"
             (statically_registered add_env add_func [] initial_world)))).
Proof.
  assert (H1 : registry_of (tools_file initial_world) = Some []) by reflexivity.
  assert (H2 : dict_get str_eqb (fn_name add_func) (module_globals add_env) = None)
    by reflexivity.
  assert (H3 : select add_env "add 2 and 3"
                 (statically_registered add_env add_func [] initial_world)
               = (Return (Some (selection_text "add" add_arguments_text "__runtime__")),
                  selected add_env "add 2 and 3"
                    (statically_registered add_env add_func [] initial_world)))
    by (vm_compute; reflexivity).
  assert (H4 : contains "None" (selection_text "add" add_arguments_text "__runtime__")
               = false) by (vm_compute; reflexivity).
  assert (H5 : parses_to add_env (selection_text "add" add_arguments_text "__runtime__")
                 "add" [("x", PInt 2); ("y", PInt 3)] (PStr "__runtime__")).
  { exists (selection "add" [("x", PInt 2); ("y", PInt 3)] (PStr "__runtime__")).
    split_and!; vm_compute; reflexivity. }
  assert (H6 : find_module add_env "__runtime__"
                 (importing "__runtime__"
                    (selected add_env "add 2 and 3"
                       (statically_registered add_env add_func [] initial_world)))
               = (Raise (ModuleNotFoundError "No module named '__runtime__'"),
                  importing "__runtime__"
                    (selected add_env "add 2 and 3"
                       (statically_registered add_env add_func [] initial_world))))
    by reflexivity.
  assert (H7 : isinstance (ModuleNotFoundError "No module named '__runtime__'")
                 "ImportError" = true) by (vm_compute; reflexivity).
  split_and!; [exact H1|exact H2|exact H3|exact H4|exact H5|exact H7|..];
    apply (static_tool_dispatch_imports add_env add_func "add 2 and 3" _
             initial_world _ _ [] _ _ H1 H2 H3 H4 H5 H6 H7).
Defined.

(** ** Module registration *)

Section raises_only_facts.
Context {A B : Type} (P : exn → Prop).

Lemma raises_only_ret (a : A) : raises_only P (ret a).
Proof. intros w e w' H. unfold ret in H. by simplify_eq. Qed.

Lemma raises_only_bind (c : M A) (k : A → M B) :
  raises_only P c → (∀ a, raises_only P (k a)) → raises_only P (c ≫= k).
Proof.
  intros Hc Hk w e w' H. unfold_monad.
  destruct (c w) as [[a|e0] w0] eqn:Hcw.
  - by eapply Hk.
  - simplify_eq. by eapply Hc.
Qed.

Lemma raises_only_lift (r : result A) :
  (∀ e, r = Raise e → P e) → raises_only P (lift r).
Proof. intros Hr w e w' H. unfold lift in H. simplify_eq. by apply Hr. Qed.
End raises_only_facts.

Lemma raises_only_for_each {X S} (P : exn → Prop) (xs : list X)
    (body : X → S → M S) :
  (∀ x s, raises_only P (body x s)) → ∀ s, raises_only P (for_each xs body s).
Proof.
  intros Hbody. induction xs as [|x xs IH]; intros s; simpl.
  - apply raises_only_ret.
  - apply raises_only_bind; [apply Hbody|apply IH].
Qed.

Section store_facts.
Context (E : Env).
Implicit Types (w : World) (reg d : list (string * pyval)).

Lemma getitem_raise v k e : getitem v k = Raise e → not_value_error e.
Proof.
  destruct v as [| | | | |d]; simpl; try (intros; by simplify_eq).
  destruct (sget k d); intros; by simplify_eq.
Qed.

Lemma setitem_raise v k x e : setitem v k x = Raise e → not_value_error e.
Proof. destruct v; simpl; intros; by simplify_eq. Qed.

Lemma tools_setitem_raise tools k x e :
  tools_setitem tools k x = Raise e → not_value_error e.
Proof.
  destruct tools as [md|[]]; simpl; try (intros; by simplify_eq).
  destruct (hashable k); intros; by simplify_eq.
Qed.

Lemma iterate_raise v e : iterate v = Raise e → not_value_error e.
Proof. destruct v; simpl; intros; by simplify_eq. Qed.

Lemma load_tools_raise : raises_only not_value_error load_tools.
Proof.
  intros [f rf u l t] e w'. unfold load_tools, get_tools_path. unfold_monad.
  destruct f as [| | |[]]; simpl; intros; by simplify_eq.
Qed.

Lemma save_tools_raise tools : raises_only not_value_error (save_tools tools).
Proof.
  intros [f rf u l t] e w'. unfold save_tools, get_tools_path, json_dump.
  unfold_monad.
  assert (Hkey : ∀ (md : list (pyval * pyval)) e0,
            json_members md = Raise e0 → not_value_error e0).
  { induction md as [|[k v] d IH]; intros e0; simpl; [done|].
    destruct k; simpl; try destruct b;
      try (destruct (json_members d); intros; simplify_eq; by eauto);
      intros; by simplify_eq. }
  destruct tools as [md|v]; simpl.
  - destruct (json_members md) eqn:Hd; destruct f; simpl; intros; simplify_eq;
      by eapply Hkey.
  - destruct f; simpl; intros; by simplify_eq.
Qed.

Lemma register_entry_raise module_path tool tools :
  raises_only not_value_error (register_entry E module_path tool tools).
Proof.
  unfold register_entry.
  repeat first
    [ apply raises_only_bind; [|intros ?]
    | apply raises_only_ret
    | apply raises_only_lift; intros ?;
      first [apply getitem_raise|apply setitem_raise|apply tools_setitem_raise] ].
  - intros w e w' H. unfold uuid4 in H. by simplify_eq.
  - intros w e w' H. unfold logging_info in H. unfold_monad. by simplify_eq.
Qed.

(** Nothing after the parse raises a [ValueError] of its own. *)
Lemma store_entries_raise module_path new_tools :
  raises_only not_value_error (store_entries E module_path new_tools).
Proof.
  unfold store_entries.
  apply raises_only_bind; [apply load_tools_raise|intros tools].
  apply raises_only_bind; [apply raises_only_lift, iterate_raise|intros items].
  apply raises_only_bind;
    [apply raises_only_for_each; intros; apply register_entry_raise|intros tools'].
  apply raises_only_bind; [apply save_tools_raise|intros []].
  intros w e w' H. unfold logging_info in H. unfold_monad. by simplify_eq.
Qed.

(** [register_function] once the module is loaded and the LLM has
    answered. *)
Lemma register_function_parsed module_path w m w0 src response :
  find_module E module_path (importing module_path w) = (Return m, w0) →
  mod_source m = Return src →
  llm_content E (llm_calls w0) (registration_prompt src module_path)
  = Return response →
  register_function E module_path w =
    match literal_eval E (strip response) with
    | Return new_tools =>
        store_entries E module_path new_tools
          (asked (registration_prompt src module_path) w0)
    | Raise e =>
        if parse_caught e then
          (Raise (ValueError ("Invalid tool format from LLM: " +:+ exn_msg e)),
           asked (registration_prompt src module_path) w0)
        else (Raise e, asked (registration_prompt src module_path) w0)
    end.
Proof.
  intros Hfind Hsrc Hllm.
  unfold register_function, store_entries, try_except. unfold_monad.
  rewrite import_module_eq, Hfind, Hsrc, llm_invoke_eq, Hllm.
  destruct (literal_eval E (strip response)) as [new_tools|e]; [done|].
  unfold parse_caught. by destruct (existsb _ _).
Qed.
End store_facts.

(** ** Literal texts *)

Section literal_facts.
Implicit Types (d : list record) (p r : record) (rest : list ascii) (q : quote).
















End literal_facts.




Section upsert_facts.
Context (E : Env) (module_path : string).
Implicit Types (w : World) (reg d : list (string * pyval))
  (entries : list (string * list (string * pyval))).

Lemma sset_sset k (v1 v2 : pyval) d : sset k v2 (sset k v1 d) = sset k v2 d.
Proof.
  unfold sset. induction d as [|[k0 v0] d IH]; simpl.
  - by rewrite str_eqb_refl.
  - destruct (str_eqb k0 k) eqn:Hk; simpl; rewrite Hk; [done|]. by rewrite IH.
Qed.

Lemma entry_record_module_path call_id d :
  sget "module_path" (entry_record module_path call_id d) = Some (PStr module_path).
Proof.
  unfold entry_record. rewrite sget_sset_ne by done. apply sget_sset_eq.
Qed.

Lemma entry_record_call_id call_id d :
  sget "tool_call_id" (entry_record module_path call_id d)
  = Some (PStr ("tool_" +:+ call_id)).
Proof. apply sget_sset_eq. Qed.

Lemma entry_record_name call_id d :
  sget "tool_name" (entry_record module_path call_id d) = sget "tool_name" d.
Proof. unfold entry_record. by rewrite !sget_sset_ne by done. Qed.

(** One iteration of the loop on an entry that is a dictionary with a
    string under [tool_name]. *)
Lemma register_entry_ok name d reg w :
  sget "tool_name" d = Some (PStr name) →
  register_entry E module_path (PDict d) (TDict (in_memory reg)) w =
    (Return (TDict (in_memory
       (sset name
          (PDict (entry_record module_path (uuid4_str E (uuid_draws w)) d)) reg))),
     mk_world (tools_file w) (registered_functions w) (S (uuid_draws w))
       (llm_calls w)
       (trace w ++ entry_logs E module_path (uuid_draws w) [(name, d)])).
Proof.
  intros Hname. unfold register_entry, uuid4, logging_info. unfold_monad.
  cbn [setitem getitem].
  change (dict_get str_eqb ?k ?d) with (sget k d).
  rewrite (sget_sset_ne "module_path" "tool_name") by done. rewrite Hname.
  cbn [tools_setitem hashable]. rewrite in_memory_set. cbn [setitem].
  rewrite in_memory_set, sset_sset. cbn [getitem].
  fold (entry_record module_path (uuid4_str E (uuid_draws w)) d).
  by rewrite entry_record_name, Hname.
Qed.

(** The loop over a list of such entries. *)
Lemma for_each_register_entries entries : ∀ reg w,
  Forall (λ ne, sget "tool_name" ne.2 = Some (PStr ne.1)) entries →
  for_each ((λ ne, PDict ne.2) <$> entries) (register_entry E module_path)
    (TDict (in_memory reg)) w =
    (Return (TDict (in_memory
       (upsert_entries E module_path (uuid_draws w) entries reg))),
     mk_world (tools_file w) (registered_functions w)
       (uuid_draws w + length entries) (llm_calls w)
       (trace w ++ entry_logs E module_path (uuid_draws w) entries)).
Proof.
  induction entries as [|[name d] entries IH]; intros reg w Hall.
  - simpl. unfold_monad. destruct w; simpl. do 2 f_equal; [lia|].
    by rewrite app_nil_r.
  - apply Forall_cons in Hall as [Hname Hall]. simpl in Hname.
    cbn [fmap list_fmap for_each]. unfold_monad.
    change (list_fmap _ _ ?f ?l) with (f <$> l).
    change ((name, d).2) with d.
    rewrite (register_entry_ok name d reg w Hname).
    rewrite IH by done. simpl. do 2 f_equal; [lia|].
    by rewrite <- app_assoc.
Qed.


Lemma upsert_entries_other entries k : ∀ n reg,
  k ∉ entries.*1 →
  sget k (upsert_entries E module_path n entries reg) = sget k reg.
Proof.
  induction entries as [|[name d] entries IH]; intros n reg Hk; simpl; [done|].
  apply not_elem_of_cons in Hk as [Hne Hk].
  rewrite IH by done. by apply sget_sset_ne.
Qed.

(** The last entry of a name is the one the registry ends up with. *)
Lemma upsert_entries_last entries : ∀ n reg i name d,
  entries !! i = Some (name, d) →
  (∀ j name' d', i < j → entries !! j = Some (name', d') → name' ≠ name) →
  sget name (upsert_entries E module_path n entries reg)
  = Some (PDict (entry_record module_path (uuid4_str E (n + i)) d)).
Proof.
  induction entries as [|[name0 d0] entries IH]; intros n reg i name d Hi Hlast;
    [done|].
  destruct i as [|i]; simplify_eq/=.
  - rewrite upsert_entries_other.
    + rewrite sget_sset_eq. do 4 f_equal. lia.
    + intros ([name' d'] & Heq & [j Hj]%list_elem_of_lookup)%list_elem_of_fmap.
      simpl in Heq. subst name'.
      exact (Hlast (S j) name d' ltac:(lia) Hj eq_refl).
  - replace (n + S i) with (S n + i) by lia. apply IH; [done|].
    intros j name' d' Hj Hg. apply (Hlast (S j) name' d'); [lia|done].
Qed.

(** Every entry leaves, under its name, a record that carries the
    requested module path and an identifier drawn during the loop. *)
Lemma upsert_entries_stored entries : ∀ n reg i name d,
  entries !! i = Some (name, d) →
  ∃ j d', i ≤ j < length entries ∧ entries !! j = Some (name, d') ∧
    sget name (upsert_entries E module_path n entries reg)
    = Some (PDict (entry_record module_path (uuid4_str E (n + j)) d')).
Proof.
  induction entries as [|[name0 d0] entries IH]; intros n reg i name d Hi; [done|].
  destruct (decide (name ∈ entries.*1)) as [Hin|Hnin].
  - apply list_elem_of_fmap in Hin as ([name' d'] & Heq & [j Hj]%list_elem_of_lookup).
    simpl in Heq. subst name'.
    destruct i as [|i].
    + destruct (IH (S n) (sset name0
                  (PDict (entry_record module_path (uuid4_str E n) d0)) reg)
                  j name d' Hj) as (j' & d'' & Hj' & Hlook & Hget).
      exists (S j'), d''. simpl. split_and!; [lia|lia|done|].
      by replace (n + S j') with (S n + j') by lia.
    + simpl in Hi.
      destruct (IH (S n) (sset name0
                  (PDict (entry_record module_path (uuid4_str E n) d0)) reg)
                  i name d Hi) as (j' & d'' & Hj' & Hlook & Hget).
      exists (S j'), d''. simpl. split_and!; [lia|lia|done|].
      by replace (n + S j') with (S n + j') by lia.
  - destruct i as [|i]; simplify_eq/=.
    + exists 0, d. split_and!; [lia|lia|done|].
      rewrite upsert_entries_other by done. rewrite sget_sset_eq.
      do 4 f_equal. lia.
    + exfalso. apply Hnin. apply list_elem_of_fmap. exists (name, d).
      split; [done|]. by eapply list_elem_of_lookup_2.
Qed.
End upsert_facts.

(** C9: when the LLM answers with a list of entries, the registry
    document is loaded once before the loop and written once after it;
    every entry leaves under its name a record whose [module_path] is
    the requested one and whose identifier was drawn during the loop,
    the last entry of a name being the one that stays, with exactly its
    own fields next to these two; and no two entries draw the same
    identifier. *)
Theorem module_registration_batch (E : Env) (module_path src response : string)
    (w w0 : World) (m : Module)
    (entries : list (string * list (string * pyval)))
    (reg : list (string * pyval)) :
  find_module E module_path (importing module_path w) = (Return m, w0) →
  mod_source m = Return src →
  llm_content E (llm_calls w0) (registration_prompt src module_path)
  = Return response →
  literal_eval E (strip response) = Return (PList ((λ ne, PDict ne.2) <$> entries)) →
  Forall (λ ne, sget "tool_name" ne.2 = Some (PStr ne.1)) entries →
  registry_of (tools_file w0) = Some reg →
  Inj (=) (=) (uuid4_str E) →
  ∃ w' final,
    register_function E module_path w = (Return (), w') ∧
    tools_file w' = Json (PDict final) ∧
    final = upsert_entries E module_path (uuid_draws w0) entries reg ∧
    trace w' =
      trace w0 ++
      [EvLLM (registration_prompt src module_path); EvLoadTools] ++
      entry_logs E module_path (uuid_draws w0) entries ++
      [EvSaveTools;
       EvLog "INFO" ("Completed registration for module " +:+ module_path)] ∧
    (∀ i name d, entries !! i = Some (name, d) →
       ∃ j r, i ≤ j < length entries ∧
         sget name final = Some (PDict r) ∧
         sget "module_path" r = Some (PStr module_path) ∧
         sget "tool_call_id" r
         = Some (PStr ("tool_" +:+ uuid4_str E (uuid_draws w0 + j)))) ∧
    (∀ i name d, entries !! i = Some (name, d) →
       (∀ j name' d', i < j → entries !! j = Some (name', d') → name' ≠ name) →
       sget name final
       = Some (PDict (entry_record module_path (uuid4_str E (uuid_draws w0 + i)) d))) ∧
    (∀ i j, i < j < length entries →
       uuid4_str E (uuid_draws w0 + i) ≠ uuid4_str E (uuid_draws w0 + j)).
Proof.
  intros Hfind Hsrc Hllm Hparse Hall Hreg Hinj.
  eexists _, (upsert_entries E module_path (uuid_draws w0) entries reg).
  split_and!.
  - rewrite (register_function_parsed E module_path w m w0 src response) by done.
    rewrite Hparse. unfold store_entries, logging_info. unfold_monad.
    erewrite load_tools_ok by exact Hreg. cbn [iterate].
    rewrite for_each_register_entries by done.
    rewrite save_tools_ok. reflexivity.
  - done.
  - done.
  - simpl. by rewrite <- !app_assoc.
  - intros i name d Hi.
    destruct (upsert_entries_stored E module_path entries (uuid_draws w0) reg
                i name d Hi) as (j & d' & Hj & _ & Hget).
    exists j, (entry_record module_path (uuid4_str E (uuid_draws w0 + j)) d').
    split_and!; [lia|lia|done| |].
    + apply entry_record_module_path.
    + apply entry_record_call_id.
  - intros i name d Hi Hlast. by apply upsert_entries_last.
  - intros i j Hij Heq. apply Hinj in Heq. lia.
Qed.

Lemma module_registration_batch_witness :
  find_module (demo_env demo_entries_text) "calc" (importing "calc" initial_world)
  = (Return calc_module, importing "calc" initial_world) ∧
  literal_eval (demo_env demo_entries_text) (strip demo_entries_text)
  = Return (PList ((λ ne, PDict ne.2) <$> demo_entries)) ∧
  Forall (λ ne, sget "tool_name" ne.2 = Some (PStr ne.1)) demo_entries ∧
  Inj (=) (=) (uuid4_str (demo_env demo_entries_text)) ∧
  ∃ w',
    register_function (demo_env demo_entries_text) "calc" initial_world
    = (Return (), w') ∧
    tools_file w' =
      Json (PDict
        [("add", PDict [("tool_name", PStr "add"); ("module_path", PStr "calc");
                        ("tool_call_id", PStr "tool_0")]);
         ("div", PDict [("tool_name", PStr "div"); ("module_path", PStr "calc");
                        ("tool_call_id", PStr "tool_1")])]).
Proof.
  assert (H1 : find_module (demo_env demo_entries_text) "calc"
                 (importing "calc" initial_world)
               = (Return calc_module, importing "calc" initial_world))
    by reflexivity.
  assert (H2 : mod_source calc_module = Return "def add(x, y): return x + y")
    by reflexivity.
  assert (H3 : llm_content (demo_env demo_entries_text)
                 (llm_calls (importing "calc" initial_world))
                 (registration_prompt "def add(x, y): return x + y" "calc")
               = Return demo_entries_text) by reflexivity.
  assert (H4 : literal_eval (demo_env demo_entries_text) (strip demo_entries_text)
               = Return (PList ((λ ne, PDict ne.2) <$> demo_entries)))
    by (vm_compute; reflexivity).
  assert (H5 : Forall (λ ne, sget "tool_name" ne.2 = Some (PStr ne.1)) demo_entries).
  { repeat constructor. }
  assert (H6 : registry_of (tools_file (importing "calc" initial_world)) = Some [])
    by reflexivity.
  assert (H7 : Inj (=) (=) (uuid4_str (demo_env demo_entries_text))).
  { simpl. apply pretty_nat_inj. }
  split_and!; [exact H1|exact H4|exact H5|exact H7|].
  destruct (module_registration_batch (demo_env demo_entries_text) "calc" _ _
              initial_world _ calc_module demo_entries [] H1 H2 H3 H4 H5 H6 H7)
    as (w' & final & Hrun & Hdoc & -> & _).
  exists w'. split; [exact Hrun|exact Hdoc].
Defined.

(** * Further properties *)

(** ** The extractor on its own output and inside other text *)

Section extract_more.
Implicit Types (text pre post g : list ascii).

Lemma depth_app (a b : list ascii) : depth (a ++ b) = (depth a + depth b)%Z.
Proof. induction a as [|c a IH]; simpl; [done|]. rewrite IH. lia. Qed.

Lemma chars_app (a b : string) :
  list_ascii_of_string (a +:+ b) = list_ascii_of_string a ++ list_ascii_of_string b.
Proof.
  induction a as [|c a IH]; [done|].
  change (String c a +:+ b) with (String c (a +:+ b)). cbn [list_ascii_of_string].
  by rewrite IH.
Qed.

Lemma balanced_group_delimited g :
  balanced_group g → ∃ body, g = lbrace :: body ++ [rbrace].
Proof.
  intros (Hhd & Hz & Hpos). destruct g as [|c g]; [done|].
  cbn [head] in Hhd. injection Hhd as ->.
  rewrite depth_lbrace in Hz.
  destruct (decide (g = [])) as [->|Hne]; [simpl in Hz; lia|].
  destruct (exists_last Hne) as (body & c & ->). exists body.
  assert (Hk : 0 < S (length body) < length (lbrace :: body ++ [c]))
    by (simpl; rewrite length_app; simpl; lia).
  specialize (Hpos _ Hk). cbn [take] in Hpos.
  rewrite take_app_length, depth_lbrace in Hpos. rewrite depth_app in Hz.
  assert (depth [c] < 0)%Z as Hc by lia. cbn [depth] in Hc.
  destruct (decide (c = lbrace)); [lia|].
  destruct (decide (c = rbrace)) as [->|]; [done|lia].
Qed.

Lemma first_group_self g : balanced_group g → first_group g g.
Proof.
  intros Hg. exists [], []. rewrite app_nil_r. split_and!; [done| |done].
  apply not_elem_of_nil.
Qed.

Lemma first_group_around text g before after :
  lbrace ∉ before → first_group text g → first_group (before ++ text ++ after) g.
Proof.
  intros Hb (pre & post & -> & Hpre & Hg).
  exists (before ++ pre), (post ++ after). split_and!; [|by rewrite not_elem_of_app|done].
  by rewrite <- !app_assoc.
Qed.
End extract_more.

(** X1: the extractor is idempotent: what it returns is extracted from
    itself unchanged. *)
Theorem extract_json_idempotent (text s : string) :
  extract_json text = Return (Some s) → extract_json s = Return (Some s).
Proof.
  intros He. unfold extract_json in *.
  destruct (extract_chars (list_ascii_of_string text)) as [[g|]|e] eqn:Hx;
    simplify_eq/=.
  apply extract_chars_Some in Hx as (_ & _ & _ & _ & Hg).
  rewrite list_ascii_of_string_of_list_ascii.
  by rewrite (proj2 (extract_chars_Some g g) (first_group_self g Hg)).
Qed.

Lemma extract_json_idempotent_witness :
  extract_json "say {a{b}c} and {d}" = Return (Some "{a{b}c}") ∧
  extract_json "{a{b}c}" = Return (Some "{a{b}c}").
Proof.
  assert (H : extract_json "say {a{b}c} and {d}" = Return (Some "{a{b}c}"))
    by (vm_compute; reflexivity).
  split; [exact H|]. exact (extract_json_idempotent _ _ H).
Defined.

(** X2: text before the first opening brace (text without such a
    brace) and any text after the closing brace do not change what is
    extracted. *)
Theorem extract_json_surrounding_text (text s before after : string) :
  extract_json text = Return (Some s) →
  lbrace ∉ list_ascii_of_string before →
  extract_json (before +:+ text +:+ after) = Return (Some s).
Proof.
  intros He Hb. unfold extract_json in *.
  destruct (extract_chars (list_ascii_of_string text)) as [[g|]|e] eqn:Hx;
    simplify_eq/=.
  apply extract_chars_Some in Hx.
  rewrite !chars_app.
  by rewrite (proj2 (extract_chars_Some _ g)
                (first_group_around _ g _ (list_ascii_of_string after) Hb Hx)).
Qed.

Lemma extract_json_surrounding_text_witness :
  extract_json "{a{b}c}" = Return (Some "{a{b}c}") ∧
  (lbrace ∉ list_ascii_of_string "}} noise ") ∧
  extract_json ("}} noise " +:+ "{a{b}c}" +:+ " {tail") = Return (Some "{a{b}c}").
Proof.
  assert (H1 : extract_json "{a{b}c}" = Return (Some "{a{b}c}"))
    by (vm_compute; reflexivity).
  assert (H2 : lbrace ∉ list_ascii_of_string "}} noise ").
  { apply (bool_decide_unpack _). vm_compute. exact I. }
  split_and!; [exact H1|exact H2|].
  exact (extract_json_surrounding_text _ _ "}} noise " " {tail" H1 H2).
Defined.

(** X3: whatever is extracted opens with a brace, closes with a brace,
    and holds as many opening as closing braces. *)
Theorem extract_json_delimited (text s : string) :
  extract_json text = Return (Some s) →
  (∃ body, s = "{" +:+ body +:+ "}") ∧ depth (list_ascii_of_string s) = 0%Z.
Proof.
  intros He. unfold extract_json in He.
  destruct (extract_chars (list_ascii_of_string text)) as [[g|]|e] eqn:Hx;
    simplify_eq/=.
  apply extract_chars_Some in Hx as (_ & _ & _ & _ & Hg).
  rewrite list_ascii_of_string_of_list_ascii. split; [|apply Hg].
  destruct (balanced_group_delimited g Hg) as [body ->].
  exists (string_of_list_ascii body).
  rewrite <- (string_of_list_ascii_of_string ("{" +:+ _ +:+ "}")).
  f_equal. change ("{" +:+ ?x) with (String lbrace x). cbn [list_ascii_of_string].
  by rewrite chars_app, list_ascii_of_string_of_list_ascii.
Qed.

Lemma extract_json_delimited_witness :
  extract_json "say {a{b}c} and {d}" = Return (Some "{a{b}c}") ∧
  (∃ body, "{a{b}c}" = "{" +:+ body +:+ "}") ∧
  depth (list_ascii_of_string "{a{b}c}") = 0%Z.
Proof.
  assert (H : extract_json "say {a{b}c} and {d}" = Return (Some "{a{b}c}"))
    by (vm_compute; reflexivity).
  split; [exact H|]. exact (extract_json_delimited _ _ H).
Defined.

(** ** The registry document and the table of registered functions *)

(** X4: what [save_tools] writes is what [load_tools] reads back,
    whatever the document held before. *)
Theorem save_load_roundtrip (reg : list (string * pyval)) (w : World) :
  NoDup (keys reg) →
  ∃ w1 w2,
    save_tools (TDict (in_memory reg)) w = (Return (), w1) ∧
    load_tools w1 = (Return (TDict (in_memory reg)), w2) ∧
    tools_file w2 = Json (PDict reg).
Proof.
  intros Hnd. eexists _, _. split_and!.
  - apply save_tools_ok.
  - apply load_tools_ok. simpl. by rewrite dict_of_members_NoDup.
  - done.
Qed.

Lemma save_load_roundtrip_witness :
  NoDup (keys two_records) ∧
  ∃ w1 w2,
    save_tools (TDict (in_memory two_records)) corrupt_world = (Return (), w1) ∧
    load_tools w1 = (Return (TDict (in_memory two_records)), w2) ∧
    tools_file w2 = Json (PDict two_records).
Proof.
  assert (H : NoDup (keys two_records)).
  { apply (bool_decide_unpack _). vm_compute. exact I. }
  split; [exact H|]. exact (save_load_roundtrip two_records corrupt_world H).
Defined.

Lemma load_tools_unreadable (w : World) (e : exn) :
  unreadable (tools_file w) e →
  load_tools w =
    (Raise e,
     mk_world (tools_file w) (registered_functions w)
       (uuid_draws w) (llm_calls w) (trace w ++ [EvLoadTools])).
Proof.
  destruct w as [f rf u l t]. simpl.
  intros Hf. unfold load_tools, get_tools_path. unfold_monad.
  by destruct Hf.
Qed.

(** X5: a document that cannot be read, because its text is not JSON or
    because its bytes are not UTF-8, makes [function_tool] raise the
    error of the load ([JSONDecodeError] in the first case,
    [UnicodeDecodeError] in the second); by then the function is
    already in the table of registered functions and an identifier is
    drawn, but the document is not touched and nothing is logged. *)
Theorem function_tool_corrupt_document (E : Env) (func : Func) (w : World)
    (e : exn) :
  unreadable (tools_file w) e →
  function_tool E func w =
    (Raise e,
     mk_world (tools_file w)
       (dict_set str_eqb (fn_name func) func (registered_functions w))
       (S (uuid_draws w)) (llm_calls w) (trace w ++ [EvLoadTools])).
Proof.
  intros Hf. unfold function_tool, ToolManager_register_function, uuid4.
  rewrite str_eqb_refl. unfold_monad. simpl.
  by erewrite load_tools_unreadable by exact Hf.
Qed.

Lemma function_tool_corrupt_document_witness :
  (unreadable (tools_file corrupt_world)
     (JSONDecodeError "Expecting value: line 1 column 1 (char 0)") ∧
   function_tool (demo_env "{}") add_func corrupt_world =
     (Raise (JSONDecodeError "Expecting value: line 1 column 1 (char 0)"),
      mk_world (Garbage "Expecting value: line 1 column 1 (char 0)")
        [("add", add_func)] 1 0 [EvLoadTools])) ∧
  (unreadable (tools_file utf16_world)
     (UnicodeDecodeError
        "'utf-8' codec can't decode byte 0xff in position 0: invalid start byte") ∧
   function_tool (demo_env "{}") add_func utf16_world =
     (Raise (UnicodeDecodeError
        "'utf-8' codec can't decode byte 0xff in position 0: invalid start byte"),
      mk_world (tools_file utf16_world) [("add", add_func)] 1 0 [EvLoadTools])).
Proof.
  assert (H1 : unreadable (tools_file corrupt_world)
                 (JSONDecodeError "Expecting value: line 1 column 1 (char 0)"))
    by constructor.
  assert (H2 : unreadable (tools_file utf16_world)
                 (UnicodeDecodeError
                    "'utf-8' codec can't decode byte 0xff in position 0: invalid start byte"))
    by constructor.
  split; (split; [done|]).
  - exact (function_tool_corrupt_document (demo_env "{}") add_func corrupt_world _ H1).
  - exact (function_tool_corrupt_document (demo_env "{}") add_func utf16_world _ H2).
Defined.

(** X6: a document that holds JSON other than an object makes
    [function_tool] raise a [TypeError] at the item assignment; the
    document is left as it is. *)
Theorem function_tool_non_object_document (E : Env) (func : Func) (w : World)
    (v : pyval) :
  tools_file w = Json v →
  is_dict v = false →
  ∃ msg,
    function_tool E func w =
      (Raise (TypeError msg),
       mk_world (Json v)
         (dict_set str_eqb (fn_name func) func (registered_functions w))
         (S (uuid_draws w)) (llm_calls w) (trace w ++ [EvLoadTools])).
Proof.
  intros Hf Hv. destruct w as [f rf u l t]. simpl in Hf. subst f.
  unfold function_tool, ToolManager_register_function, uuid4, load_tools,
    get_tools_path.
  rewrite str_eqb_refl. unfold_monad. simpl.
  destruct v; simplify_eq/=; by eexists.
Qed.

Lemma function_tool_non_object_document_witness :
  tools_file list_world = Json (PList []) ∧
  is_dict (PList []) = false ∧
  ∃ msg,
    function_tool (demo_env "{}") add_func list_world =
      (Raise (TypeError msg),
       mk_world (Json (PList [])) [("add", add_func)] 1 0 [EvLoadTools]).
Proof.
  assert (H1 : tools_file list_world = Json (PList [])) by reflexivity.
  assert (H2 : is_dict (PList []) = false) by reflexivity.
  split_and!; [exact H1|exact H2|].
  exact (function_tool_non_object_document (demo_env "{}") add_func list_world
           _ H1 H2).
Defined.

(** X7: re-registering a name leaves the keys of the document and their
    order as they are; a new name is appended after the existing
    records. *)
Theorem function_tool_key_order (E : Env) (func : Func) (w : World)
    (reg : list (string * pyval)) :
  registry_of (tools_file w) = Some reg →
  ∃ w' members,
    function_tool E func w = (Return func, w') ∧
    tools_file w' = Json (PDict members) ∧
    (fn_name func ∈ keys reg → keys members = keys reg) ∧
    (fn_name func ∉ keys reg →
     members = reg ++ [(fn_name func,
                        metadata func "__runtime__" (uuid4_str E (uuid_draws w)))]).
Proof.
  intros Hreg. eexists _, _. split_and!.
  - by apply function_tool_ok.
  - done.
  - apply keys_sset_present.
  - apply sset_absent.
Qed.

Lemma function_tool_key_order_witness :
  registry_of (tools_file stocked_world) = Some two_records ∧
  ∃ w' members,
    function_tool (demo_env "{}") add_func stocked_world = (Return add_func, w') ∧
    tools_file w' = Json (PDict members) ∧
    keys members = ["add"; "mul"].
Proof.
  assert (H : registry_of (tools_file stocked_world) = Some two_records)
    by reflexivity.
  split; [exact H|].
  destruct (function_tool_key_order (demo_env "{}") add_func stocked_world _ H)
    as (w' & members & Hrun & Hdoc & Hkeep & _).
  exists w', members. split_and!; [exact Hrun|exact Hdoc|].
  apply Hkeep. apply (bool_decide_unpack _). vm_compute. exact I.
Defined.

Section table_facts.
Context {V : Type}.
Implicit Types (k : string) (v : V) (d : list (string * V)).

Lemma dict_get_set_ne k k' v d :
  k ≠ k' → dict_get str_eqb k' (dict_set str_eqb k v d) = dict_get str_eqb k' d.
Proof.
  intros Hne. induction d as [|[k0 v0] d IH]; simpl.
  - by rewrite str_eqb_ne.
  - destruct (str_eqb k0 k) eqn:Hk; simpl; [|by rewrite IH].
    apply str_eqb_true in Hk as ->. by rewrite str_eqb_ne.
Qed.
End table_facts.

Lemma registered_after_other (funcs : list Func) k : ∀ table,
  (∀ g, g ∈ funcs → fn_name g ≠ k) →
  dict_get str_eqb k (registered_after funcs table) = dict_get str_eqb k table.
Proof.
  unfold registered_after.
  induction funcs as [|f funcs IH]; intros table Hk; simpl; [done|].
  rewrite IH by (intros g Hg; apply Hk; by right).
  apply dict_get_set_ne, Hk. left.
Qed.

Lemma registered_after_last (funcs : list Func) : ∀ table i f,
  funcs !! i = Some f →
  (∀ j g, i < j → funcs !! j = Some g → fn_name g ≠ fn_name f) →
  dict_get str_eqb (fn_name f) (registered_after funcs table) = Some f.
Proof.
  induction funcs as [|f0 funcs IH]; intros table i f Hi Hlast; [done|].
  destruct i as [|i]; simplify_eq/=.
  - change (foldl _ ?t funcs) with (registered_after funcs t).
    rewrite registered_after_other; [apply dict_get_set_eq|].
    intros g [j Hj]%list_elem_of_lookup. apply (Hlast (S j)); [lia|done].
  - apply IH with i; [done|].
    intros j g Hj Hg. apply (Hlast (S j)); [lia|done].
Qed.

Lemma register_all_world (E : Env) (funcs : list Func) : ∀ w reg,
  registry_of (tools_file w) = Some reg →
  ∃ w', register_all E funcs w = (Return (), w') ∧
    trace w' = trace w ++ registration_events funcs ∧
    registered_functions w' = registered_after funcs (registered_functions w) ∧
    uuid_draws w' = uuid_draws w + length funcs ∧
    llm_calls w' = llm_calls w.
Proof.
  unfold register_all.
  induction funcs as [|f funcs IH]; intros w reg Hreg.
  - exists w. split_and!; [done|by rewrite app_nil_r|done|simpl; lia|done].
  - pose proof (registry_of_NoDup _ _ Hreg) as Hnd.
    cbn [for_each]. unfold_monad. rewrite (function_tool_ok E f w reg Hreg).
    cbn beta iota.
    destruct (IH (statically_registered E f reg w) _
                (registry_of_statically_registered E f reg w Hnd))
      as (w' & Hrun & Htrace & Htable & Hdraws & Hllm).
    exists w'. split_and!; [done| |done|simpl in *; lia|done].
    rewrite Htrace. simpl. by rewrite <- app_assoc.
Qed.

(** X8: static registration reads and writes the document once per
    decorated function (it is not batched), logs one line per function,
    draws one identifier per function and never asks the LLM. *)
Theorem static_registration_per_call (E : Env) (funcs : list Func) (w : World)
    (reg : list (string * pyval)) :
  registry_of (tools_file w) = Some reg →
  ∃ w',
    register_all E funcs w = (Return (), w') ∧
    trace w' = trace w ++ registration_events funcs ∧
    uuid_draws w' = uuid_draws w + length funcs ∧
    llm_calls w' = llm_calls w.
Proof.
  intros Hreg.
  destruct (register_all_world E funcs w reg Hreg)
    as (w' & Hrun & Htrace & _ & Hdraws & Hllm).
  by exists w'.
Qed.

Lemma static_registration_per_call_witness :
  registry_of (tools_file initial_world) = Some [] ∧
  ∃ w',
    register_all (demo_env "{}") [add_func; div_func] initial_world = (Return (), w') ∧
    trace w' =
      [EvLoadTools; EvSaveTools; EvLog "INFO" "Registered tool: add (runtime)";
       EvLoadTools; EvSaveTools; EvLog "INFO" "Registered tool: div (runtime)"] ∧
    uuid_draws w' = 2 ∧
    llm_calls w' = 0.
Proof.
  assert (H : registry_of (tools_file initial_world) = Some []) by reflexivity.
  split; [exact H|].
  exact (static_registration_per_call (demo_env "{}") [add_func; div_func]
           initial_world [] H).
Defined.

(** X9: after a sequence of static registrations the table of
    registered functions holds, under each registered name, the
    function registered last under it, and every other name keeps the
    function it had. *)
Theorem static_registration_table (E : Env) (funcs : list Func) (w : World)
    (reg : list (string * pyval)) :
  registry_of (tools_file w) = Some reg →
  ∃ w',
    register_all E funcs w = (Return (), w') ∧
    (∀ i f,
       funcs !! i = Some f →
       (∀ j g, i < j → funcs !! j = Some g → fn_name g ≠ fn_name f) →
       dict_get str_eqb (fn_name f) (registered_functions w') = Some f) ∧
    (∀ k, (∀ g, g ∈ funcs → fn_name g ≠ k) →
       dict_get str_eqb k (registered_functions w')
       = dict_get str_eqb k (registered_functions w)).
Proof.
  intros Hreg.
  destruct (register_all_world E funcs w reg Hreg)
    as (w' & Hrun & _ & Htable & _).
  exists w'. rewrite Htable. split_and!.
  - done.
  - intros i f Hi Hlast. by apply registered_after_last with i.
  - intros k Hk. by apply registered_after_other.
Qed.

Lemma static_registration_table_witness :
  registry_of (tools_file initial_world) = Some [] ∧
  ∃ w',
    register_all (demo_env "{}") [add_func; div_func; add_func2] initial_world
    = (Return (), w') ∧
    dict_get str_eqb "add" (registered_functions w') = Some add_func2 ∧
    dict_get str_eqb "div" (registered_functions w') = Some div_func.
Proof.
  assert (H : registry_of (tools_file initial_world) = Some []) by reflexivity.
  split; [exact H|].
  destruct (static_registration_table (demo_env "{}") [add_func; div_func; add_func2]
              initial_world [] H) as (w' & Hrun & Hlast & _).
  exists w'. split_and!; [exact Hrun| |].
  - apply (Hlast 2 add_func2); [reflexivity|].
    intros j g Hj Hg. destruct j as [|[|[|j]]]; [lia|lia|lia|discriminate].
  - apply (Hlast 1 div_func); [reflexivity|].
    intros j g Hj Hg. destruct j as [|[|[|j]]]; [lia|lia| |discriminate].
    simpl in Hg. injection Hg as <-. discriminate.
Defined.

(** ** What the dispatcher does with each kind of selection *)

Section dispatch_more.
Context (E : Env).
Implicit Types (w : World) (task data name : string).

Lemma tool_calling_guarded task w data w1 :
  select E task w = (Return (Some data), w1) →
  contains "None" data = false →
  tool_calling E task w =
    match dispatch E data w1 with
    | (Return r, w2) => (Return r, w2)
    | (Raise e, w2) =>
        if dispatch_caught e then
          (Return PNone, logged "ERROR" ("Tool execution failed: " +:+ exn_msg e) w2)
        else (Raise e, w2)
    end.
Proof.
  intros Hsel Hnone. rewrite tool_calling_unfold, Hsel.
  rewrite (select_nonempty _ _ _ _ _ Hsel). simpl default. by rewrite Hnone.
Qed.

(** The dispatch of a parsed selection, whatever its fields hold. *)
Lemma dispatch_parsed data tool_call name arguments module_path w :
  json_loads E data = Return tool_call →
  getitem tool_call "tool_name" = Return (PStr name) →
  getitem tool_call "arguments" = Return arguments →
  getitem tool_call "module_path" = Return module_path →
  dispatch E data w =
    match dict_get str_eqb name (module_globals E) with
    | Some f => call E f arguments w
    | None =>
        match import_module E module_path w with
        | (Return module, w') =>
            match dict_get str_eqb name (mod_attrs module) with
            | Some func => call E func arguments w'
            | None =>
                (Raise (AttributeError ("module has no attribute '" +:+ name +:+ "'")),
                 w')
            end
        | (Raise e, w') => (Raise e, w')
        end
    end.
Proof.
  intros Hload Hname Hargs Hpath.
  unfold dispatch. unfold_monad. rewrite Hload, Hname, Hargs, Hpath. simpl.
  destruct (dict_get str_eqb name (module_globals E)); [done|].
  destruct (import_module E module_path w) as [[module|e] w']; [|done].
  by destruct (dict_get str_eqb name (mod_attrs module)).
Qed.
End dispatch_more.

(** X10: when the selection resolves to a function and the function
    returns, [tool_calling] returns that value, in the world the
    function left. *)
Theorem tool_calling_returns_tool_result (E : Env) (task data name : string)
    (w w1 w2 w3 : World) (kwargs : list (string * pyval)) (module_path : pyval)
    (f : Func) (r : pyval) :
  select E task w = (Return (Some data), w1) →
  contains "None" data = false →
  parses_to E data name kwargs module_path →
  resolves E name module_path w1 (OFunc f) w2 →
  call_func E f kwargs w2 = (Return r, w3) →
  tool_calling E task w = (Return r, w3).
Proof.
  intros Hsel Hnone Hparse Hres Hcall.
  rewrite (tool_calling_resolved E task w data w1 name kwargs module_path f w2)
    by done.
  by rewrite Hcall.
Qed.

Lemma tool_calling_returns_tool_result_witness :
  select (demo_env (selection_text "add" add_arguments_text "calc")) "add 2 and 3"
    initial_world
  = (Return (Some (selection_text "add" add_arguments_text "calc")),
     selected (demo_env (selection_text "add" add_arguments_text "calc"))
       "add 2 and 3" initial_world) ∧
  contains "None" (selection_text "add" add_arguments_text "calc") = false ∧
  tool_calling (demo_env (selection_text "add" add_arguments_text "calc"))
    "add 2 and 3" initial_world
  = (Return (PInt 5),
     importing "calc"
       (selected (demo_env (selection_text "add" add_arguments_text "calc"))
          "add 2 and 3" initial_world)).
Proof.
  assert (H1 : select (demo_env (selection_text "add" add_arguments_text "calc"))
                 "add 2 and 3" initial_world
               = (Return (Some (selection_text "add" add_arguments_text "calc")),
                  selected (demo_env (selection_text "add" add_arguments_text "calc"))
                    "add 2 and 3" initial_world))
    by (vm_compute; reflexivity).
  assert (H2 : contains "None" (selection_text "add" add_arguments_text "calc") = false)
    by (vm_compute; reflexivity).
  assert (H3 : parses_to (demo_env (selection_text "add" add_arguments_text "calc"))
                 (selection_text "add" add_arguments_text "calc") "add"
                 [("x", PInt 2); ("y", PInt 3)] (PStr "calc")).
  { exists (selection "add" [("x", PInt 2); ("y", PInt 3)] (PStr "calc")).
    split_and!; vm_compute; reflexivity. }
  assert (H4 : resolves (demo_env (selection_text "add" add_arguments_text "calc"))
                 "add" (PStr "calc")
                 (selected (demo_env (selection_text "add" add_arguments_text "calc"))
                    "add 2 and 3" initial_world)
                 (OFunc add_func)
                 (importing "calc"
                    (selected (demo_env (selection_text "add" add_arguments_text "calc"))
                       "add 2 and 3" initial_world))).
  { apply (resolves_import _ _ _ _ "calc" calc_module); reflexivity. }
  split_and!; [exact H1|exact H2|].
  exact (tool_calling_returns_tool_result _ "add 2 and 3" _ "add" initial_world
           _ _ _ [("x", PInt 2); ("y", PInt 3)] (PStr "calc") add_func (PInt 5)
           H1 H2 H3 H4 eq_refl).
Defined.



(** X12: extracted text that [json.loads] rejects makes [tool_calling]
    log the error and return [None]; nothing is imported or called. *)
Theorem tool_calling_invalid_json (E : Env) (task data : string) (w w1 : World)
    (e : exn) :
  select E task w = (Return (Some data), w1) →
  contains "None" data = false →
  json_loads E data = Raise e →
  isinstance e "JSONDecodeError" = true →
  tool_calling E task w =
    (Return PNone, logged "ERROR" ("Tool execution failed: " +:+ exn_msg e) w1).
Proof.
  intros Hsel Hnone Hload Hcls.
  rewrite (tool_calling_guarded E task w data w1) by done.
  unfold dispatch. unfold_monad. rewrite Hload.
  unfold dispatch_caught. simpl existsb. by rewrite Hcls.
Qed.

Lemma tool_calling_invalid_json_witness :
  select (demo_env "{tool: add}") "add 2 and 3" initial_world
  = (Return (Some "{tool: add}"),
     selected (demo_env "{tool: add}") "add 2 and 3" initial_world) ∧
  contains "None" "{tool: add}" = false ∧
  json_loads (demo_env "{tool: add}") "{tool: add}"
  = Raise (JSONDecodeError "Expecting value: line 1 column 1 (char 0)") ∧
  tool_calling (demo_env "{tool: add}") "add 2 and 3" initial_world
  = (Return PNone,
     logged "ERROR"
       "Tool execution failed: Expecting value: line 1 column 1 (char 0)"
       (selected (demo_env "{tool: add}") "add 2 and 3" initial_world)).
Proof.
  assert (H1 : select (demo_env "{tool: add}") "add 2 and 3" initial_world
               = (Return (Some "{tool: add}"),
                  selected (demo_env "{tool: add}") "add 2 and 3" initial_world))
    by (vm_compute; reflexivity).
  assert (H2 : contains "None" "{tool: add}" = false) by (vm_compute; reflexivity).
  assert (H3 : json_loads (demo_env "{tool: add}") "{tool: add}"
               = Raise (JSONDecodeError "Expecting value: line 1 column 1 (char 0)"))
    by (vm_compute; reflexivity).
  split_and!; [exact H1|exact H2|exact H3|].
  exact (tool_calling_invalid_json _ "add 2 and 3" _ initial_world _ _
           H1 H2 H3 eq_refl).
Defined.

(** X13: a name that is not in the namespace of [tool.py] and whose
    module cannot be imported makes [tool_calling] log the import error
    and return [None]. *)
Theorem tool_calling_import_failure (E : Env) (task data name path : string)
    (w w1 w2 : World) (kwargs : list (string * pyval)) (e : exn) :
  select E task w = (Return (Some data), w1) →
  contains "None" data = false →
  parses_to E data name kwargs (PStr path) →
  dict_get str_eqb name (module_globals E) = None →
  find_module E path (importing path w1) = (Raise e, w2) →
  isinstance e "ImportError" = true →
  tool_calling E task w =
    (Return PNone, logged "ERROR" ("Tool execution failed: " +:+ exn_msg e) w2).
Proof.
  intros Hsel Hnone Hparse Hg Hfind Hcls.
  rewrite (tool_calling_guarded E task w data w1) by done.
  rewrite (dispatch_import_fails E data name kwargs path w1 e w2) by done.
  unfold dispatch_caught. simpl existsb. rewrite Hcls. by rewrite orb_true_r.
Qed.

Lemma tool_calling_import_failure_witness :
  select add_env "add 2 and 3" initial_world
  = (Return (Some (selection_text "add" add_arguments_text "__runtime__")),
     selected add_env "add 2 and 3" initial_world) ∧
  contains "None" (selection_text "add" add_arguments_text "__runtime__") = false ∧
  dict_get str_eqb "add" (module_globals add_env) = None ∧
  tool_calling add_env "add 2 and 3" initial_world
  = (Return PNone,
     logged "ERROR" "Tool execution failed: No module named '__runtime__'"
       (importing "__runtime__" (selected add_env "add 2 and 3" initial_world))).
Proof.
  assert (H1 : select add_env "add 2 and 3" initial_world
               = (Return (Some (selection_text "add" add_arguments_text "__runtime__")),
                  selected add_env "add 2 and 3" initial_world))
    by (vm_compute; reflexivity).
  assert (H2 : contains "None" (selection_text "add" add_arguments_text "__runtime__")
               = false) by (vm_compute; reflexivity).
  assert (H3 : parses_to add_env (selection_text "add" add_arguments_text "__runtime__")
                 "add" [("x", PInt 2); ("y", PInt 3)] (PStr "__runtime__")).
  { exists (selection "add" [("x", PInt 2); ("y", PInt 3)] (PStr "__runtime__")).
    split_and!; vm_compute; reflexivity. }
  assert (H4 : dict_get str_eqb "add" (module_globals add_env) = None) by reflexivity.
  split_and!; [exact H1|exact H2|exact H4|].
  exact (tool_calling_import_failure add_env "add 2 and 3" _ "add" "__runtime__"
           initial_world _ _ _ (ModuleNotFoundError "No module named '__runtime__'")
           H1 H2 H3 H4 eq_refl eq_refl).
Defined.

(** X14: a module that imports but lacks the named attribute makes
    [tool_calling] log the [AttributeError] and return [None]. *)
Theorem tool_calling_missing_attribute (E : Env) (task data name path : string)
    (w w1 w2 : World) (kwargs : list (string * pyval)) (m : Module) :
  select E task w = (Return (Some data), w1) →
  contains "None" data = false →
  parses_to E data name kwargs (PStr path) →
  dict_get str_eqb name (module_globals E) = None →
  find_module E path (importing path w1) = (Return m, w2) →
  dict_get str_eqb name (mod_attrs m) = None →
  ∃ msg,
    tool_calling E task w =
      (Return PNone, logged "ERROR" ("Tool execution failed: " +:+ msg) w2).
Proof.
  intros Hsel Hnone (tc & Hload & Hname & Hargs & Hpath) Hg Hfind Hattr.
  rewrite (tool_calling_guarded E task w data w1) by done.
  rewrite (dispatch_parsed E data tc name (PDict kwargs) (PStr path) w1) by done.
  rewrite Hg, import_module_eq, Hfind, Hattr. by eexists.
Qed.

Lemma tool_calling_missing_attribute_witness :
  select (extra_env (selection_text "mul" "{}" "calc")) "multiply" initial_world
  = (Return (Some (selection_text "mul" "{}" "calc")),
     selected (extra_env (selection_text "mul" "{}" "calc")) "multiply" initial_world) ∧
  contains "None" (selection_text "mul" "{}" "calc") = false ∧
  dict_get str_eqb "mul" (mod_attrs calc_module) = None ∧
  ∃ msg,
    tool_calling (extra_env (selection_text "mul" "{}" "calc")) "multiply" initial_world
    = (Return PNone,
       logged "ERROR" ("Tool execution failed: " +:+ msg)
         (importing "calc"
            (selected (extra_env (selection_text "mul" "{}" "calc")) "multiply"
               initial_world))).
Proof.
  assert (H1 : select (extra_env (selection_text "mul" "{}" "calc")) "multiply"
                 initial_world
               = (Return (Some (selection_text "mul" "{}" "calc")),
                  selected (extra_env (selection_text "mul" "{}" "calc")) "multiply"
                    initial_world)) by (vm_compute; reflexivity).
  assert (H2 : contains "None" (selection_text "mul" "{}" "calc") = false)
    by (vm_compute; reflexivity).
  assert (H3 : parses_to (extra_env (selection_text "mul" "{}" "calc"))
                 (selection_text "mul" "{}" "calc") "mul" [] (PStr "calc")).
  { exists (selection "mul" [] (PStr "calc")). split_and!; vm_compute; reflexivity. }
  assert (H5 : dict_get str_eqb "mul" (mod_attrs calc_module) = None) by reflexivity.
  split_and!; [exact H1|exact H2|exact H5|].
  exact (tool_calling_missing_attribute _ "multiply" _ "mul" "calc" initial_world
           _ _ [] calc_module H1 H2 H3 eq_refl eq_refl H5).
Defined.







(** X18: a registry document that cannot be read, because its text is
    not JSON or because its bytes are not UTF-8, makes [tool_calling]
    raise the error of the load to its caller ([JSONDecodeError] in the
    first case, [UnicodeDecodeError] in the second: the load is outside
    the [try] block) before the LLM is asked anything. *)
Theorem tool_calling_corrupt_document (E : Env) (task : string) (w : World)
    (e : exn) :
  unreadable (tools_file w) e →
  tool_calling E task w =
    (Raise e,
     mk_world (tools_file w) (registered_functions w) (uuid_draws w) (llm_calls w)
       (trace w ++ [EvLoadTools])).
Proof.
  intros Hf. rewrite tool_calling_unfold. unfold select. unfold_monad.
  by rewrite (load_tools_unreadable w e Hf).
Qed.

Lemma tool_calling_corrupt_document_witness :
  (unreadable (tools_file corrupt_world)
     (JSONDecodeError "Expecting value: line 1 column 1 (char 0)") ∧
   tool_calling (demo_env "{}") "add 2 and 3" corrupt_world =
     (Raise (JSONDecodeError "Expecting value: line 1 column 1 (char 0)"),
      mk_world (Garbage "Expecting value: line 1 column 1 (char 0)") [] 0 0
        [EvLoadTools])) ∧
  (unreadable (tools_file utf16_world)
     (UnicodeDecodeError
        "'utf-8' codec can't decode byte 0xff in position 0: invalid start byte") ∧
   tool_calling (demo_env "{}") "add 2 and 3" utf16_world =
     (Raise (UnicodeDecodeError
        "'utf-8' codec can't decode byte 0xff in position 0: invalid start byte"),
      mk_world (tools_file utf16_world) [] 0 0 [EvLoadTools])).
Proof.
  assert (H1 : unreadable (tools_file corrupt_world)
                 (JSONDecodeError "Expecting value: line 1 column 1 (char 0)"))
    by constructor.
  assert (H2 : unreadable (tools_file utf16_world)
                 (UnicodeDecodeError
                    "'utf-8' codec can't decode byte 0xff in position 0: invalid start byte"))
    by constructor.
  split; (split; [done|]).
  - exact (tool_calling_corrupt_document (demo_env "{}") "add 2 and 3" corrupt_world _ H1).
  - exact (tool_calling_corrupt_document (demo_env "{}") "add 2 and 3" utf16_world _ H2).
Defined.

(** X19: an exception of the LLM client during the selection reaches
    the caller of [tool_calling] unchanged, whatever its class: the call
    is outside the [try] block. *)
Theorem tool_calling_llm_failure (E : Env) (task : string) (w w0 : World)
    (tools : tools_obj) (e : exn) :
  load_tools w = (Return tools, w0) →
  llm_content E (llm_calls w0) (selection_prompt task (json_dumps E tools)) = Raise e →
  tool_calling E task w =
    (Raise e, asked (selection_prompt task (json_dumps E tools)) w0).
Proof.
  intros Hload Hllm. rewrite tool_calling_unfold. unfold select. unfold_monad.
  by rewrite Hload, llm_invoke_eq, Hllm.
Qed.

Lemma tool_calling_llm_failure_witness :
  load_tools initial_world
  = (Return (TDict []), mk_world (Json (PDict [])) [] 0 0 [EvLoadTools]) ∧
  llm_content offline_env 0 (selection_prompt "add 2 and 3" "{}")
  = Raise (ConnectionError "Connection refused") ∧
  tool_calling offline_env "add 2 and 3" initial_world =
    (Raise (ConnectionError "Connection refused"),
     asked (selection_prompt "add 2 and 3" "{}")
       (mk_world (Json (PDict [])) [] 0 0 [EvLoadTools])).
Proof.
  assert (H1 : load_tools initial_world
               = (Return (TDict []), mk_world (Json (PDict [])) [] 0 0 [EvLoadTools]))
    by reflexivity.
  assert (H2 : llm_content offline_env 0 (selection_prompt "add 2 and 3" "{}")
               = Raise (ConnectionError "Connection refused")) by reflexivity.
  split_and!; [exact H1|exact H2|].
  exact (tool_calling_llm_failure offline_env "add 2 and 3" initial_world _ _ _ H1 H2).
Defined.

(** ** What the dispatcher never does *)

Section keeps_store_facts.
Context {A B : Type}.

Lemma store_kept_refl w : store_kept w w.
Proof. done. Qed.

Lemma store_kept_trans w1 w2 w3 :
  store_kept w1 w2 → store_kept w2 w3 → store_kept w1 w3.
Proof. intros (? & ? & ?) (? & ? & ?). split_and!; congruence. Qed.

Lemma keeps_store_ret (a : A) : keeps_store (ret a).
Proof. intros w. apply store_kept_refl. Qed.

Lemma keeps_store_raise (e : exn) : keeps_store (raise e : M A).
Proof. intros w. apply store_kept_refl. Qed.

Lemma keeps_store_lift (r : result A) : keeps_store (lift r).
Proof. intros w. apply store_kept_refl. Qed.

Lemma keeps_store_bind (c : M A) (k : A → M B) :
  keeps_store c → (∀ a, keeps_store (k a)) → keeps_store (c ≫= k).
Proof.
  intros Hc Hk w. unfold_monad. specialize (Hc w).
  destruct (c w) as [[a|e] w0]; [|done].
  eapply store_kept_trans; [exact Hc|apply Hk].
Qed.

Lemma keeps_store_try (c : M A) classes (h : exn → M A) :
  keeps_store c → (∀ e, keeps_store (h e)) → keeps_store (try_except c classes h).
Proof.
  intros Hc Hh w. unfold try_except. specialize (Hc w).
  destruct (c w) as [[a|e] w0]; [done|].
  destruct (existsb _ _); [|done].
  eapply store_kept_trans; [exact Hc|apply Hh].
Qed.
End keeps_store_facts.

Lemma keeps_store_emit ev : keeps_store (emit ev).
Proof. by intros w. Qed.

Lemma keeps_store_llm E prompt : keeps_store (llm_invoke E prompt).
Proof. by intros w. Qed.

Lemma keeps_store_load : keeps_store load_tools.
Proof.
  intros [f rf u l t]. unfold load_tools, get_tools_path. unfold_monad.
  by destruct f as [| | |[]].
Qed.

Lemma keeps_store_call E f arguments :
  (∀ g kwargs, keeps_store (call_func E g kwargs)) →
  keeps_store (call E f arguments).
Proof.
  intros Hcall. unfold call.
  destruct arguments; try apply keeps_store_raise.
  destruct f; [apply Hcall|apply keeps_store_raise].
Qed.

(** X20: as long as the imported modules and the tools themselves leave
    the registry alone, [tool_calling] never changes the registry
    document (it only creates the empty one when none exists), never
    touches the table of registered functions and never draws an
    identifier, however the call ends. *)
Theorem tool_calling_keeps_store (E : Env) (task : string) :
  (∀ path, keeps_store (find_module E path)) →
  (∀ f kwargs, keeps_store (call_func E f kwargs)) →
  keeps_store (tool_calling E task).
Proof.
  intros Hfind Hcall. unfold tool_calling.
  apply keeps_store_bind; [apply keeps_store_load|intros tools].
  apply keeps_store_bind; [apply keeps_store_llm|intros response].
  apply keeps_store_bind; [apply keeps_store_lift|intros tool_data].
  destruct (falsy tool_data || contains "None" (default EmptyString tool_data)).
  - apply keeps_store_bind; [apply keeps_store_llm|intros ?; apply keeps_store_ret].
  - apply keeps_store_try.
    + unfold dispatch.
      do 5 (apply keeps_store_bind; [apply keeps_store_lift|intros ?]).
      destruct a3; [by apply keeps_store_call|].
      apply keeps_store_bind.
      * unfold import_module. destruct a2; try apply keeps_store_raise.
        apply keeps_store_bind; [apply keeps_store_emit|intros ?; apply Hfind].
      * intros module.
        apply keeps_store_bind; [apply keeps_store_lift|intros ?].
        by apply keeps_store_call.
    + intros e. apply keeps_store_bind; [apply keeps_store_emit|].
      intros ?. apply keeps_store_ret.
Qed.

Lemma tool_calling_keeps_store_witness :
  (∀ path, keeps_store (find_module (extra_env (selection_text "div" "{}" "calc")) path)) ∧
  (∀ f kwargs,
     keeps_store (call_func (extra_env (selection_text "div" "{}" "calc")) f kwargs)) ∧
  store_kept stocked_world
    (tool_calling (extra_env (selection_text "div" "{}" "calc")) "divide"
       stocked_world).2.
Proof.
  assert (H1 : ∀ path,
            keeps_store (find_module (extra_env (selection_text "div" "{}" "calc")) path)).
  { intros path w. simpl. unfold extra_find_module, demo_find_module.
    repeat case_match; apply store_kept_refl. }
  assert (H2 : ∀ f kwargs,
            keeps_store (call_func (extra_env (selection_text "div" "{}" "calc"))
                           f kwargs)).
  { intros f kwargs w. simpl. unfold extra_call, demo_call.
    repeat case_match; apply store_kept_refl. }
  split_and!; [exact H1|exact H2|].
  exact (tool_calling_keeps_store _ "divide" H1 H2 stocked_world).
Defined.

(** ** Module registration: failures and what is kept *)

(** X21: a module that cannot be imported makes [register_function]
    raise a [ValueError] that names the module and carries the message
    of the import error; the LLM is not asked and the registry is not
    read. *)
Theorem register_function_import_failure (E : Env) (module_path : string)
    (w w0 : World) (e : exn) :
  find_module E module_path (importing module_path w) = (Raise e, w0) →
  isinstance e "ImportError" || isinstance e "ValueError" = true →
  register_function E module_path w =
    (Raise (ValueError ("Failed to load module " +:+ module_path +:+ ": " +:+
                        exn_msg e)), w0).
Proof.
  intros Hfind Hcls. unfold register_function, try_except. unfold_monad.
  rewrite import_module_eq, Hfind. simpl existsb.
  rewrite orb_false_r. by rewrite Hcls.
Qed.

Lemma register_function_import_failure_witness :
  find_module (demo_env "{}") "nowhere" (importing "nowhere" initial_world)
  = (Raise (ModuleNotFoundError "No module named 'nowhere'"),
     importing "nowhere" initial_world) ∧
  isinstance (ModuleNotFoundError "No module named 'nowhere'") "ImportError"
  || isinstance (ModuleNotFoundError "No module named 'nowhere'") "ValueError" = true ∧
  register_function (demo_env "{}") "nowhere" initial_world =
    (Raise (ValueError "Failed to load module nowhere: No module named 'nowhere'"),
     importing "nowhere" initial_world).
Proof.
  assert (H1 : find_module (demo_env "{}") "nowhere" (importing "nowhere" initial_world)
               = (Raise (ModuleNotFoundError "No module named 'nowhere'"),
                  importing "nowhere" initial_world)) by reflexivity.
  assert (H2 : isinstance (ModuleNotFoundError "No module named 'nowhere'")
                 "ImportError"
               || isinstance (ModuleNotFoundError "No module named 'nowhere'")
                    "ValueError" = true) by (vm_compute; reflexivity).
  split_and!; [exact H1|exact H2|].
  exact (register_function_import_failure (demo_env "{}") "nowhere" initial_world
           _ _ H1 H2).
Defined.

(** X22: a module that imports but whose source [inspect.getsource]
    cannot give, with an exception that is neither an [ImportError] nor
    a [ValueError] (the [TypeError] of a built-in module, the [OSError]
    of a missing file), makes [register_function] raise that exception
    as it is, not the [ValueError] of a failed load; the LLM is not
    asked. *)
Theorem register_function_source_failure (E : Env) (module_path : string)
    (w w0 : World) (m : Module) (e : exn) :
  find_module E module_path (importing module_path w) = (Return m, w0) →
  mod_source m = Raise e →
  isinstance e "ImportError" || isinstance e "ValueError" = false →
  register_function E module_path w = (Raise e, w0).
Proof.
  intros Hfind Hsrc Hcls. unfold register_function, try_except. unfold_monad.
  rewrite import_module_eq, Hfind, Hsrc. simpl existsb.
  rewrite orb_false_r. by rewrite Hcls.
Qed.

Lemma register_function_source_failure_witness :
  find_module (extra_env "{}") "sys" (importing "sys" initial_world)
  = (Return builtin_module, importing "sys" initial_world) ∧
  mod_source builtin_module
  = Raise (TypeError "<module 'sys' (built-in)> is a built-in module") ∧
  register_function (extra_env "{}") "sys" initial_world =
    (Raise (TypeError "<module 'sys' (built-in)> is a built-in module"),
     importing "sys" initial_world).
Proof.
  assert (H1 : find_module (extra_env "{}") "sys" (importing "sys" initial_world)
               = (Return builtin_module, importing "sys" initial_world))
    by reflexivity.
  assert (H2 : mod_source builtin_module
               = Raise (TypeError "<module 'sys' (built-in)> is a built-in module"))
    by reflexivity.
  split_and!; [exact H1|exact H2|].
  exact (register_function_source_failure (extra_env "{}") "sys" initial_world
           _ builtin_module _ H1 H2 eq_refl).
Defined.

Section batch_facts.
Context (E : Env) (module_path : string).

(** One iteration never touches the document. *)
Lemma register_entry_file tool tools w :
  tools_file (register_entry E module_path tool tools w).2 = tools_file w.
Proof.
  unfold register_entry, uuid4, logging_info. unfold_monad.
  destruct (setitem tool "module_path" _) as [tool1|e]; [|done].
  destruct (getitem tool1 "tool_name") as [name|e]; [|done].
  destruct (tools_setitem tools name tool1) as [tools1|e]; [|done].
  simpl.
  destruct (setitem tool1 "tool_call_id" _) as [tool2|e]; [|done].
  destruct (tools_setitem tools1 name tool2) as [tools2|e]; [|done].
  by destruct (getitem tool2 "tool_name") as [shown|e].
Qed.

Lemma for_each_register_entry_file items : ∀ tools w,
  tools_file (for_each items (register_entry E module_path) tools w).2
  = tools_file w.
Proof.
  induction items as [|tool items IH]; intros tools w; [done|].
  cbn [for_each]. unfold_monad.
  pose proof (register_entry_file tool tools w) as Hfile.
  destruct (register_entry E module_path tool tools w) as [[tools1|e] w1];
    simpl in *; [|done].
  by rewrite IH.
Qed.

(** An entry without a name stops the loop. *)
Lemma register_entry_nameless tool tools w :
  nameless tool = true →
  ∃ e, (register_entry E module_path tool tools w).1 = Raise e.
Proof.
  intros Hbad. unfold register_entry. unfold_monad.
  destruct tool as [| | | | |d]; simpl; try by eexists.
  simpl in Hbad. apply bool_decide_eq_true in Hbad.
  change (dict_get str_eqb ?k ?d) with (sget k d).
  rewrite (sget_sset_ne "module_path" "tool_name") by done. rewrite Hbad.
  by eexists.
Qed.

Lemma for_each_nameless items :
  Exists (λ tool, nameless tool = true) items → ∀ tools w,
  ∃ e, (for_each items (register_entry E module_path) tools w).1 = Raise e.
Proof.
  induction 1 as [tool items Hbad|tool items _ IH]; intros tools w;
    cbn [for_each]; unfold_monad.
  - destruct (register_entry_nameless tool tools w Hbad) as [e He].
    destruct (register_entry E module_path tool tools w) as [[tools1|e1] w1];
      simplify_eq/=. by eexists.
  - destruct (register_entry E module_path tool tools w) as [[tools1|e1] w1];
      [apply IH|by eexists].
Qed.

End batch_facts.

(** X23: when one entry of the list the LLM answered is not a
    dictionary, or is a dictionary without [tool_name], the module
    registration raises, with an exception that is not the
    [ValueError] of a bad format, and the document is not written: it
    holds what it held, the valid entries before the failing one
    having reached nothing but the in-memory registry. *)
Theorem nameless_entry_aborts_registration (E : Env)
    (module_path src response : string) (w w0 : World) (m : Module)
    (items : list pyval) :
  find_module E module_path (importing module_path w) = (Return m, w0) →
  mod_source m = Return src →
  llm_content E (llm_calls w0) (registration_prompt src module_path)
  = Return response →
  literal_eval E (strip response) = Return (PList items) →
  Exists (λ tool, nameless tool = true) items →
  ∃ e w',
    register_function E module_path w = (Raise e, w') ∧
    not_value_error e ∧
    ensure_file (tools_file w') = ensure_file (tools_file w0).
Proof.
  intros Hfind Hsrc Hllm Hparse Hbad.
  rewrite (register_function_parsed E module_path w m w0 src response) by done.
  rewrite Hparse.
  destruct (store_entries E module_path (PList items)
              (asked (registration_prompt src module_path) w0))
    as [r w'] eqn:Hrun.
  assert (∃ e, r = Raise e ∧
            ensure_file (tools_file w') = ensure_file (tools_file w0))
    as (e & -> & Hfile).
  { revert Hrun. unfold store_entries. unfold_monad.
    pose proof (keeps_store_load (asked (registration_prompt src module_path) w0))
      as (Hload & _).
    destruct (load_tools _) as [[tools|e0] w1]; simpl in Hload;
      [|intros; simplify_eq; by eexists].
    cbn [iterate].
    destruct (for_each_nameless E module_path items Hbad tools w1) as [e He].
    pose proof (for_each_register_entry_file E module_path items tools w1) as Hsame.
    destruct (for_each items _ tools w1) as [[tools1|e1] w2]; simplify_eq/=.
    intros. simplify_eq. eexists. split; [done|]. by rewrite Hsame. }
  exists e, w'. split_and!; [done| |done].
  by apply store_entries_raise in Hrun.
Qed.

Lemma nameless_entry_aborts_registration_witness :
  find_module (extra_env missing_name_text) "calc" (importing "calc" stocked_world)
  = (Return calc_module, importing "calc" stocked_world) ∧
  literal_eval (extra_env missing_name_text) (strip missing_name_text)
  = Return (PList [PDict [("tool_name", PStr "add")];
                   PDict [("docstring", PStr "nameless")];
                   PDict [("tool_name", PStr "div")]]) ∧
  Exists (λ tool, nameless tool = true)
    [PDict [("tool_name", PStr "add")];
     PDict [("docstring", PStr "nameless")];
     PDict [("tool_name", PStr "div")]] ∧
  ∃ e w',
    register_function (extra_env missing_name_text) "calc" stocked_world
    = (Raise e, w') ∧
    not_value_error e ∧
    ensure_file (tools_file w') = ensure_file (tools_file (importing "calc" stocked_world)).
Proof.
  assert (H1 : find_module (extra_env missing_name_text) "calc"
                 (importing "calc" stocked_world)
               = (Return calc_module, importing "calc" stocked_world))
    by reflexivity.
  assert (H4 : literal_eval (extra_env missing_name_text) (strip missing_name_text)
               = Return (PList [PDict [("tool_name", PStr "add")];
                                PDict [("docstring", PStr "nameless")];
                                PDict [("tool_name", PStr "div")]]))
    by (vm_compute; reflexivity).
  assert (H5 : Exists (λ tool, nameless tool = true)
                 [PDict [("tool_name", PStr "add")];
                  PDict [("docstring", PStr "nameless")];
                  PDict [("tool_name", PStr "div")]]).
  { apply Exists_cons_tl, Exists_cons_hd. reflexivity. }
  split_and!; [exact H1|exact H4|exact H5|].
  exact (nameless_entry_aborts_registration (extra_env missing_name_text) "calc"
           _ _ stocked_world _ calc_module _ H1 eq_refl eq_refl H4 H5).
Defined.



(** X25: an answer that parses to one value instead of a sequence of
    entries ([None], a Boolean, an integer, a non-empty string, a
    non-empty dictionary) is not rejected as a bad format: the
    registration fails on it with a [TypeError], after the registry was
    loaded; no identifier is drawn and the document is not written. *)
Theorem single_value_answer_type_error (E : Env)
    (module_path src response : string) (w w0 : World) (m : Module)
    (new_tools : pyval) (reg : list (string * pyval)) :
  find_module E module_path (importing module_path w) = (Return m, w0) →
  mod_source m = Return src →
  llm_content E (llm_calls w0) (registration_prompt src module_path)
  = Return response →
  literal_eval E (strip response) = Return new_tools →
  single_value new_tools →
  registry_of (tools_file w0) = Some reg →
  ∃ msg w',
    register_function E module_path w = (Raise (TypeError msg), w') ∧
    ensure_file (tools_file w') = ensure_file (tools_file w0) ∧
    uuid_draws w' = uuid_draws w0 ∧
    trace w' =
      trace w0 ++ [EvLLM (registration_prompt src module_path); EvLoadTools].
Proof.
  intros Hfind Hsrc Hllm Hparse Hsingle Hreg.
  rewrite (register_function_parsed E module_path w m w0 src response) by done.
  rewrite Hparse. unfold store_entries. unfold_monad.
  erewrite load_tools_ok by exact Hreg.
  assert (Hfile : ∀ f, ensure_file (ensure_file f) = ensure_file f)
    by (by intros []).
  destruct new_tools as [|b|z|s|l|d].
  - do 2 eexists. split_and!; [done|apply Hfile|done|]. simpl.
    by rewrite <- app_assoc.
  - do 2 eexists. split_and!; [done|apply Hfile|done|]. simpl.
    by rewrite <- app_assoc.
  - do 2 eexists. split_and!; [done|apply Hfile|done|]. simpl.
    by rewrite <- app_assoc.
  - destruct s as [|c s]; [done|].
    do 2 eexists. split_and!; [done|apply Hfile|done|]. simpl.
    by rewrite <- app_assoc.
  - done.
  - destruct d as [|[k x] d]; [done|].
    do 2 eexists. split_and!; [done|apply Hfile|done|]. simpl.
    by rewrite <- app_assoc.
Qed.

Lemma single_value_answer_type_error_witness :
  find_module (extra_env single_entry_text) "calc" (importing "calc" stocked_world)
  = (Return calc_module, importing "calc" stocked_world) ∧
  literal_eval (extra_env single_entry_text) (strip single_entry_text)
  = Return (PDict [("tool_name", PStr "add")]) ∧
  single_value (PDict [("tool_name", PStr "add")]) ∧
  registry_of (tools_file (importing "calc" stocked_world)) = Some two_records ∧
  ∃ msg w',
    register_function (extra_env single_entry_text) "calc" stocked_world
    = (Raise (TypeError msg), w') ∧
    ensure_file (tools_file w')
    = ensure_file (tools_file (importing "calc" stocked_world)) ∧
    uuid_draws w' = uuid_draws (importing "calc" stocked_world) ∧
    trace w' =
      trace (importing "calc" stocked_world) ++
      [EvLLM (registration_prompt "def add(x, y): return x + y" "calc");
       EvLoadTools].
Proof.
  assert (H1 : find_module (extra_env single_entry_text) "calc"
                 (importing "calc" stocked_world)
               = (Return calc_module, importing "calc" stocked_world))
    by reflexivity.
  assert (H4 : literal_eval (extra_env single_entry_text) (strip single_entry_text)
               = Return (PDict [("tool_name", PStr "add")]))
    by (vm_compute; reflexivity).
  assert (H5 : single_value (PDict [("tool_name", PStr "add")]))
    by (simpl; discriminate).
  assert (H7 : registry_of (tools_file (importing "calc" stocked_world))
               = Some two_records) by (vm_compute; reflexivity).
  split_and!; [exact H1|exact H4|exact H5|exact H7|].
  exact (single_value_answer_type_error (extra_env single_entry_text) "calc"
           _ _ stocked_world _ calc_module _ two_records
           H1 eq_refl eq_refl H4 H5 H7).
Defined.
